(** * The steps of the task-management workflow

    A shallow embedding of [createSchedule.execute] and of
    [analyzeTasks.execute] from
    [src/mastra/workflows/task-management-workflow.ts], with the properties
    of the schedule that the first builds and of the priorities that the
    second assigns.

    Modelling conventions.
    - JavaScript numbers that carry hours are finite and their arithmetic
      is exact: they are rationals ([Q]).  The one place where the source
      can leave the finite numbers, the division that yields
      [averageHoursPerDay], returns a [JsNumber], which has [NaN] and the
      infinities.
    - A [Date] is a time value: milliseconds since the epoch, or the
      invalid date ([DateValue]).  [startDate] is the value of
      [new Date(startDate)].  The runtime's local time zone is a parameter
      ([TimeZone]): [getDay] and [setDate] read and move the local
      calendar day, [toISOString] reads the UTC day and throws a
      [RangeError] on the invalid date.  The text
      [toISOString().split("T")[0]] of a valid date is represented by the
      number of its UTC day, counted from 1970-01-01.
    - [console.log] narration is left out, except for the date that the
      message on lines 289-291 renders with [toISOString].  The agent is
      consulted after the schedule is built; the text of the prompt sent
      to it is left out and its streamed answer is an input of the model.
    - The [while] loop is run with fuel; [None] means that the fuel ran out
      before the loop was left. *)

From Stdlib Require Import List ZArith QArith Qround String Ascii Bool.
From Stdlib Require Import Lia Lqa Permutation Sorted DecimalString.
Import ListNotations.

Local Open Scope Q_scope.

(** ** JavaScript helpers *)

(** The result of a JavaScript division of two finite numbers. *)
Inductive JsNumber : Type :=
| Finite (q : Q)
| NaN
| PosInfinity
| NegInfinity.

(** [a / b] on finite operands. *)
Definition js_div (a b : Q) : JsNumber :=
  if Qeq_bool b 0 then
    if Qeq_bool a 0 then NaN
    else if Qle_bool 0 a then PosInfinity else NegInfinity
  else Finite (a / b).

(** [Math.floor]. *)
Definition Math_floor (x : Q) : Z := Qfloor x.

(** [Math.round]: nearest integer, halves go up. *)
Definition Math_round (x : Q) : Z := Qfloor (x + (1 # 2)).

(** [x % 1]: the remainder has the sign of the dividend. *)
Definition js_rem1 (x : Q) : Q :=
  if Qle_bool 0 x then x - inject_Z (Qfloor x) else x - inject_Z (Qceiling x).

(** [n.toString()] of an integer. *)
Definition toString (n : Z) : string := NilZero.string_of_int (Z.to_int n).

(** [s.padStart(n, "0")]. *)
Fixpoint zeros (n : nat) : string :=
  match n with
  | O => EmptyString
  | S n' => String "0" (zeros n')
  end.

Definition padStart (n : nat) (s : string) : string :=
  (zeros (n - String.length s) ++ s)%string.

(** The white space that [trim] removes, within ASCII. *)
Definition is_space (c : ascii) : bool :=
  let n := nat_of_ascii c in
  ((n =? 32) || (n =? 9) || (n =? 10) || (n =? 11) || (n =? 12) || (n =? 13))%nat.

Fixpoint trimStart (s : string) : string :=
  match s with
  | EmptyString => EmptyString
  | String c s' => if is_space c then trimStart s' else s
  end.

Fixpoint trimEnd (s : string) : string :=
  match s with
  | EmptyString => EmptyString
  | String c s' =>
      match trimEnd s' with
      | EmptyString => if is_space c then EmptyString else String c EmptyString
      | t => String c t
      end
  end.

Definition trim (s : string) : string := trimEnd (trimStart s).

(** *** Dates *)

(** The time value of a [Date]: milliseconds since the epoch, or [NaN] for
    the invalid date. *)
Inductive DateValue : Type :=
| InvalidDate
| Time (ms : Z).

Definition msPerDay : Z := 1000 * 60 * 60 * 24.

(** The largest time value of a [Date]. *)
Definition maxTime : Z := 8640000000000000.

(** [TimeClip]. *)
Definition timeClip (t : Z) : DateValue :=
  if (Z.abs t <=? maxTime)%Z then Time t else InvalidDate.

(** The local time zone of the runtime: the offset of local time from UTC
    at a UTC time value, and the UTC time value that a local time value
    stands for. *)
Record TimeZone : Type := {
  offsetAt : Z -> Z;
  utcOfLocal : Z -> Z
}.

(** [LocalTime]. *)
Definition localTime (tz : TimeZone) (t : Z) : Z := (t + offsetAt tz t)%Z.

(** A runtime whose local time is UTC. *)
Definition utc : TimeZone :=
  {| offsetAt := fun _ => 0%Z; utcOfLocal := fun l => l |}.

(** [Date.prototype.getDay]: the day of the week in local time, Sunday
    being 0 (1970-01-01 was a Thursday); [None] stands for [NaN]. *)
Definition getDay (tz : TimeZone) (date : DateValue) : option Z :=
  match date with
  | InvalidDate => None
  | Time t => Some ((localTime tz t / msPerDay + 4) mod 7)%Z
  end.

(** [date.setDate(date.getDate() + days)] on a copy of [date]: the local
    calendar day moves, the local time of day stays. *)
Definition setDatePlus (tz : TimeZone) (date : DateValue) (days : Z)
  : DateValue :=
  match date with
  | InvalidDate => InvalidDate
  | Time t => timeClip (utcOfLocal tz (localTime tz t + days * msPerDay))
  end.

(** ** Data model *)

(** An element of [prioritizedTasksSchema.tasks], with the fields the step
    reads. *)
Record Task : Type := {
  id : string;
  title : string;
  estimatedHours : Q;
  aiPriority : Z;
  reasoning : string
}.

(** An element of [dailySchedule[].tasks]. *)
Record ScheduledTask : Type := {
  taskId : string;
  startTime : string;
  endTime : string;
  notes : string
}.

Module Day.
(** An element of [dailySchedule]. *)
Record t : Type := {
  date : Z;
  tasks : list ScheduledTask;
  totalHours : Q
}.
End Day.

Module Summary.
Record t : Type := {
  totalTasks : nat;
  totalHours : Q;
  totalDays : nat;
  averageHoursPerDay : JsNumber
}.
End Summary.

Module Schedule.
(** The value of [scheduleSchema] that the step returns. *)
Record t : Type := {
  dailySchedule : list Day.t;
  suggestions : string;
  summary : Summary.t
}.
End Schedule.

Module Input.
(** [inputData] of the step. *)
Record t : Type := {
  tasks : list Task;
  workingHoursPerDay : Q;
  startDate : DateValue;
  excludeWeekends : bool
}.
End Input.

(** An agent, as far as the step uses it: the chunks of [textStream]. *)
Record Agent : Type := { textStream : list string }.

(** [mastra?.getAgent]. *)
Record Mastra : Type := { getAgent : string -> option Agent }.

(** What the step can throw. *)
Inductive Error : Type :=
| AgentNotFound        (* new Error("Agent not found") *)
| TypeError            (* reading a property of [undefined] *)
| RangeError.          (* [toISOString] of the invalid date *)

Inductive Outcome (A : Type) : Type :=
| Threw (e : Error)
| Returned (a : A).
Arguments Threw {A} e.
Arguments Returned {A} a.

Definition bind {A B : Type} (m : Outcome A) (k : A -> Outcome B)
  : Outcome B :=
  match m with
  | Threw e => Threw e
  | Returned a => k a
  end.

Notation "x <- m ;; k" := (bind m (fun x => k))
  (at level 61, m at next level, right associativity).

(** ** Date and time helpers of [execute] *)

Definition addDays (tz : TimeZone) (date : DateValue) (days : Z) : DateValue :=
  setDatePlus tz date days.

Definition isWeekend (tz : TimeZone) (date : DateValue) : bool :=
  match getDay tz date with
  | Some day => ((day =? 0) || (day =? 6))%Z   (* Sunday = 0, Saturday = 6 *)
  | None => false                              (* NaN equals nothing *)
  end.

(** [date.toISOString().split("T")[0]]: the UTC day of a valid date. *)
Definition toISODate (date : DateValue) : Outcome Z :=
  match date with
  | InvalidDate => Threw RangeError
  | Time t => Returned (t / msPerDay)%Z
  end.

Definition formatTime (hours : Q) : string :=
  let h := Math_floor (9 + hours) in
  let m := Math_round (js_rem1 hours * 60) in
  (padStart 2 (toString h) ++ ":" ++ padStart 2 (toString m))%string.

(** ** The scheduling loop *)

(** The mutable locals of [execute]. *)
Record State : Type := {
  schedule : list Day.t;
  currentDate : DateValue;
  currentDayHours : Q;
  currentDayTasks : list ScheduledTask;
  taskIndex : nat;
  totalScheduledHours : Q
}.

Definition mkNotes (task : Task) : string :=
  ("優先度: " ++ toString (aiPriority task) ++ "/10 - " ++ reasoning task)%string.

(** [mastra?.getAgent("weatherAgent")]. *)
Definition lookupAgent (mastra : option Mastra) : option Agent :=
  match mastra with
  | Some m => getAgent m "weatherAgent"
  | None => None
  end.

Section Scheduling.

Variable tz : TimeZone.
Variable inputData : Input.t.

Let tasks := Input.tasks inputData.
Let workingHoursPerDay := Input.workingHoursPerDay inputData.
Let startDate := Input.startDate inputData.
Let excludeWeekends := Input.excludeWeekends inputData.

Definition initial : State :=
  {| schedule := [];
     currentDate := startDate;
     currentDayHours := 0;
     currentDayTasks := [];
     taskIndex := 0;
     totalScheduledHours := 0 |}.

(** [schedule.push({date, tasks: [...currentDayTasks], totalHours})]. *)
Definition pushDay (st : State) : Outcome (list Day.t) :=
  date <- toISODate (currentDate st) ;;
  Returned (schedule st ++
              [ {| Day.date := date;
                   Day.tasks := currentDayTasks st;
                   Day.totalHours := currentDayHours st |} ]).

(** [if (currentDayTasks.length > 0) { schedule.push({...}) }], as it
    stands in the last branch of the loop and after the loop. *)
Definition flushDay (st : State) : Outcome (list Day.t) :=
  if (0 <? List.length (currentDayTasks st))%nat then pushDay st
  else Returned (schedule st).

(** One turn of the [while] body, [task] being [tasks[taskIndex]]. *)
Definition body (st : State) (task : Task) : Outcome State :=
  if excludeWeekends && isWeekend tz (currentDate st) then
    if (0 <? List.length (currentDayTasks st))%nat then
      schedule' <- pushDay st ;;
      Returned {| schedule := schedule';
                  currentDate := addDays tz (currentDate st) 1;
                  currentDayHours := 0;
                  currentDayTasks := [];
                  taskIndex := taskIndex st;
                  totalScheduledHours := totalScheduledHours st |}
    else
      Returned {| schedule := schedule st;
                  currentDate := addDays tz (currentDate st) 1;
                  currentDayHours := currentDayHours st;
                  currentDayTasks := currentDayTasks st;
                  taskIndex := taskIndex st;
                  totalScheduledHours := totalScheduledHours st |}
  else if Qle_bool (currentDayHours st + estimatedHours task) workingHoursPerDay then
    let startTime := formatTime (currentDayHours st) in
    let endTime := formatTime (currentDayHours st + estimatedHours task) in
    (* the message of lines 289-291 renders the date *)
    _ <- toISODate (currentDate st) ;;
    Returned {| schedule := schedule st;
                currentDate := currentDate st;
                currentDayHours := currentDayHours st + estimatedHours task;
                currentDayTasks :=
                  currentDayTasks st ++
                    [ {| taskId := id task;
                         startTime := startTime;
                         endTime := endTime;
                         notes := mkNotes task |} ];
                taskIndex := S (taskIndex st);
                totalScheduledHours :=
                  totalScheduledHours st + estimatedHours task |}
  else
    schedule' <- flushDay st ;;
    Returned {| schedule := schedule';
                currentDate := addDays tz (currentDate st) 1;
                currentDayHours := 0;
                currentDayTasks := [];
                taskIndex := taskIndex st;
                totalScheduledHours := totalScheduledHours st |}.

(** [while (taskIndex < tasks.length) { ... }]. *)
Fixpoint loop (fuel : nat) (st : State) : option (Outcome State) :=
  match fuel with
  | O => None
  | S fuel' =>
      if (taskIndex st <? List.length tasks)%nat then
        match nth_error tasks (taskIndex st) with
        | Some task =>
            match body st task with
            | Returned st' => loop fuel' st'
            | Threw e => Some (Threw e)
            end
        | None => Some (Threw TypeError)
        end
      else Some (Returned st)
  end.

(** The code after the loop: the last day, the agent's answer, the
    summary. *)
Definition finish (agent : Agent) (st : State) : Outcome Schedule.t :=
  schedule <- flushDay st ;;
  let suggestions := String.concat "" (textStream agent) in
  let summary :=
    {| Summary.totalTasks := List.length tasks;
       Summary.totalHours := totalScheduledHours st;
       Summary.totalDays := List.length schedule;
       Summary.averageHoursPerDay :=
         js_div (totalScheduledHours st)
                (inject_Z (Z.of_nat (List.length schedule))) |} in
  Returned {| Schedule.dailySchedule := schedule;
              Schedule.suggestions := trim suggestions;
              Schedule.summary := summary |}.

(** [createSchedule.execute]. *)
Definition execute (fuel : nat) (mastra : option Mastra)
  : option (Outcome Schedule.t) :=
  match lookupAgent mastra with
  | None => Some (Threw AgentNotFound)
  | Some agent =>
      match loop fuel initial with
      | None => None
      | Some (Threw e) => Some (Threw e)
      | Some (Returned st) => Some (finish agent st)
      end
  end.

End Scheduling.

(** ** Sample runs *)

Definition mkTask (i : string) (h : Q) : Task :=
  {| id := i; title := i; estimatedHours := h; aiPriority := 5;
     reasoning := ""%string |}.

Definition theAgent : Agent := {| textStream := [" ok"%string; " "%string] |}.

Definition theMastra : option Mastra :=
  Some {| getAgent := fun name =>
            if String.eqb name "weatherAgent" then Some theAgent else None |}.

Definition noAgent : option Mastra :=
  Some {| getAgent := fun _ => None |}.

(** Midnight UTC at the start of the [d]-th day since 1970-01-01. *)
Definition day_ms (d : Z) : Z := (d * msPerDay)%Z.

(** 2024-01-15, a Monday, 2024-01-19, a Friday, and 2024-03-10, the Sunday
    on which daylight saving time began in New York. *)
Definition monday : Z := 19737.
Definition friday : Z := 19741.
Definition march10 : Z := 19792.

(** [new Date("2024-01-15")] and the like: midnight UTC of that day. *)
Definition dateOf (d : Z) : DateValue := Time (day_ms d).

(** America/New_York in the first half of 2024: five hours behind UTC
    until 2024-03-10 07:00 UTC (02:00 local), four hours behind after. *)
Definition newYork : TimeZone :=
  {| offsetAt := fun t =>
       if (t <? day_ms march10 + 7 * 3600000)%Z
       then (- 5 * 3600000)%Z else (- 4 * 3600000)%Z;
     utcOfLocal := fun l =>
       if (l <? day_ms march10 + 2 * 3600000)%Z
       then (l + 5 * 3600000)%Z else (l + 4 * 3600000)%Z |}.

Definition input_426 : Input.t :=
  {| Input.tasks := [mkTask "a" 4; mkTask "b" 2; mkTask "c" 6];
     Input.workingHoursPerDay := 8;
     Input.startDate := dateOf monday;
     Input.excludeWeekends := true |}.

Definition input_10 : Input.t :=
  {| Input.tasks := [mkTask "big" 10];
     Input.workingHoursPerDay := 8;
     Input.startDate := dateOf monday;
     Input.excludeWeekends := true |}.

Definition input_friday : Input.t :=
  {| Input.tasks :=
       [mkTask "a" 2; mkTask "b" 2; mkTask "c" 2; mkTask "d" 2; mkTask "e" 2];
     Input.workingHoursPerDay := 8;
     Input.startDate := dateOf friday;
     Input.excludeWeekends := true |}.

Definition input_empty : Input.t :=
  {| Input.tasks := [];
     Input.workingHoursPerDay := 0;
     Input.startDate := dateOf monday;
     Input.excludeWeekends := true |}.

(** Three tasks of a full day each, from 2024-03-10 on, weekends
    included. *)
Definition input_march : Input.t :=
  {| Input.tasks := [mkTask "a" 8; mkTask "b" 8; mkTask "c" 8];
     Input.workingHoursPerDay := 8;
     Input.startDate := dateOf march10;
     Input.excludeWeekends := false |}.

(** A task that fits, and a [startDate] that is no date. *)
Definition input_no_date : Input.t :=
  {| Input.tasks := [mkTask "a" 4];
     Input.workingHoursPerDay := 8;
     Input.startDate := InvalidDate;
     Input.excludeWeekends := true |}.

(** What the sample runs return. *)
Definition noSchedule : Schedule.t :=
  {| Schedule.dailySchedule := [];
     Schedule.suggestions := ""%string;
     Schedule.summary :=
       {| Summary.totalTasks := 0; Summary.totalHours := 0;
          Summary.totalDays := 0; Summary.averageHoursPerDay := NaN |} |}.

Definition returned (o : option (Outcome Schedule.t)) : Schedule.t :=
  match o with
  | Some (Returned r) => r
  | _ => noSchedule
  end.

Definition result_426 : Schedule.t :=
  Eval vm_compute in returned (execute utc input_426 13 theMastra).

Definition result_friday : Schedule.t :=
  Eval vm_compute in returned (execute utc input_friday 21 theMastra).

Definition result_empty : Schedule.t :=
  Eval vm_compute in returned (execute utc input_empty 1 theMastra).

Definition result_friday_newYork : Schedule.t :=
  Eval vm_compute in returned (execute newYork input_friday 21 theMastra).

Definition result_march_newYork : Schedule.t :=
  Eval vm_compute in returned (execute newYork input_march 13 theMastra).

Definition result_march : Schedule.t :=
  Eval vm_compute in returned (execute utc input_march 13 theMastra).

(** ** Vocabulary of the properties *)

(** The task ids of a list of days, in order of appearance. *)
Definition days_ids (ds : list Day.t) : list string :=
  flat_map (fun d => map taskId (Day.tasks d)) ds.

(** The ids that the loop has handed out: those of the finished days, then
    those of the day being filled. *)
Definition scheduled_ids (st : State) : list string :=
  days_ids (schedule st) ++ map taskId (currentDayTasks st).

(** The sum of the [totalHours] of a list of days. *)
Definition days_hours (ds : list Day.t) : Q :=
  fold_right (fun d acc => Day.totalHours d + acc) 0 ds.

(** The sum of the durations of a list of tasks. *)
Definition tasks_hours (ts : list Task) : Q :=
  fold_right (fun t acc => estimatedHours t + acc) 0 ts.

(** [contiguous h entries seg]: [entries] are the tasks [seg], laid out one
    after the other from the offset [h] on: every entry starts at the offset
    where the one before it ends, and ends [estimatedHours] later. *)
Inductive contiguous : Q -> list ScheduledTask -> list Task -> Prop :=
| contiguous_nil h : contiguous h [] []
| contiguous_cons h a t rest seg :
    taskId a = id t ->
    startTime a = formatTime h ->
    endTime a = formatTime (h + estimatedHours t) ->
    contiguous (h + estimatedHours t) rest seg ->
    contiguous h (a :: rest) (t :: seg).

(** The offset reached after [seg], starting from [h]. *)
Definition offset_after (h : Q) (seg : list Task) : Q :=
  fold_left (fun h t => h + estimatedHours t) seg h.

(** The day of the week of an emitted date, Sunday being 0. *)
Definition weekday (date : Z) : Z := ((date + 4) mod 7)%Z.

(** An emitted date that is a Saturday or a Sunday. *)
Definition weekendDate (date : Z) : bool :=
  ((weekday date =? 0) || (weekday date =? 6))%Z.

(** Time zones in which the local calendar day is the UTC calendar day at
    every moment. *)
Definition local_day_is_utc_day (tz : TimeZone) : Prop :=
  forall t, (localTime tz t / msPerDay = t / msPerDay)%Z.

(** Time zones in which moving a date by one local day moves its UTC day
    by one. *)
Definition next_day_is_next_utc_day (tz : TimeZone) : Prop :=
  forall t t', addDays tz (Time t) 1 = Time t' ->
               (t' / msPerDay = t / msPerDay + 1)%Z.

(** *** Invariants of the loop, one per concern *)

Definition inv_ids (inputData : Input.t) (st : State) : Prop :=
  scheduled_ids st = map id (firstn (taskIndex st) (Input.tasks inputData)).

Definition inv_nonempty (st : State) : Prop :=
  Forall (fun d => Day.tasks d <> []) (schedule st).

Definition inv_dates (st : State) : Prop :=
  StronglySorted Z.lt (map Day.date (schedule st)) /\
  (forall t, currentDate st = Time t ->
     Forall (fun d => (Day.date d < t / msPerDay)%Z) (schedule st)).

Definition inv_capacity (inputData : Input.t) (st : State) : Prop :=
  Forall (fun d => Day.totalHours d <= Input.workingHoursPerDay inputData)
         (schedule st) /\
  (currentDayTasks st <> [] ->
   currentDayHours st <= Input.workingHoursPerDay inputData).

Definition inv_weekend (tz : TimeZone) (st : State) : Prop :=
  Forall (fun d => weekendDate (Day.date d) = false) (schedule st) /\
  (currentDayTasks st <> [] -> isWeekend tz (currentDate st) = false).

Definition inv_hours (inputData : Input.t) (st : State) : Prop :=
  totalScheduledHours st == days_hours (schedule st) + currentDayHours st /\
  (currentDayTasks st = [] -> currentDayHours st == 0) /\
  totalScheduledHours st
  == tasks_hours (firstn (taskIndex st) (Input.tasks inputData)).

Definition inv_layout (inputData : Input.t) (st : State) : Prop :=
  exists (segs : list (list Task)) (cur : list Task),
    Forall2 (fun d seg => contiguous 0 (Day.tasks d) seg) (schedule st) segs /\
    contiguous 0 (currentDayTasks st) cur /\
    currentDayHours st = offset_after 0 cur /\
    List.concat segs ++ cur = firstn (taskIndex st) (Input.tasks inputData).

(** *** Vocabulary of the further properties *)

(** The entries that the loop builds for the run [seg] of tasks placed one
    after the other on a day, from the offset [h] on. *)
Fixpoint entries (h : Q) (seg : list Task) : list ScheduledTask :=
  match seg with
  | [] => []
  | t :: seg' =>
      {| taskId := id t;
         startTime := formatTime h;
         endTime := formatTime (h + estimatedHours t);
         notes := mkNotes t |}
      :: entries (h + estimatedHours t) seg'
  end.

(** The first day from [d] on that the weekend test lets through. *)
Definition skipWeekend (ex : bool) (d : Z) : Z :=
  if ex && weekendDate d then
    if weekendDate (d + 1) then (d + 2)%Z else (d + 1)%Z
  else d.

(** The day on which the search for the [k]-th day of the schedule starts:
    [startDate], then the day after the previous day of the schedule. *)
Fixpoint dayStart (ex : bool) (d : Z) (k : nat) : Z :=
  match k with
  | O => d
  | S k' => (skipWeekend ex (dayStart ex d k') + 1)%Z
  end.

(** The [k]-th day, counted from 0, on which work can be placed. *)
Definition nthWorkingDay (ex : bool) (d : Z) (k : nat) : Z :=
  skipWeekend ex (dayStart ex d k).

(** [reaches_in k st st1]: the loop started in [st] comes to [st1] within
    [k] turns. *)
Definition reaches_in (tz : TimeZone) (inputData : Input.t) (k : nat)
           (st st1 : State) : Prop :=
  forall fuel r, loop tz inputData fuel st1 = Some r ->
                 loop tz inputData (k + fuel) st = Some r.

(** [room b st]: the current date is valid and stays so for [b] more
    days. *)
Definition room (b : nat) (st : State) : Prop :=
  exists t, currentDate st = Time t /\
            (- maxTime <= t)%Z /\
            (t + Z.of_nat b * msPerDay <= maxTime)%Z.

(** [tasks.find((task) => task.id === t.taskId)], the lookup by which the
    prompt and the sample script go from an entry back to its task. *)
Definition taskInfo (tasks : list Task) (t : ScheduledTask) : option Task :=
  find (fun task => String.eqb (id task) (taskId t)) tasks.

(** A cut of the tasks into days is greedy when the first task of every
    day but the first did not fit into what was left of the day before. *)
Definition greedy_cut (capacity : Q) (segs : list (list Task)) : Prop :=
  forall pre s t s' post,
    segs = pre ++ s :: (t :: s') :: post ->
    capacity < offset_after 0 s + estimatedHours t.

(** The UTC day of a valid date. *)
Definition utcDay (date : DateValue) : option Z :=
  match date with
  | InvalidDate => None
  | Time t => Some (t / msPerDay)%Z
  end.

(** The days of the schedule lie on consecutive working days, counted from
    the UTC day [start] of [startDate]. *)
Definition inv_calendar (tz : TimeZone) (inputData : Input.t) (start : Z)
           (st : State) : Prop :=
  let ex := Input.excludeWeekends inputData in
  let k := List.length (schedule st) in
  map Day.date (schedule st) = map (nthWorkingDay ex start) (seq 0 k) /\
  (exists today, utcDay (currentDate st) = Some today /\
                 skipWeekend ex today = nthWorkingDay ex start k) /\
  (currentDayTasks st <> [] ->
   ex && isWeekend tz (currentDate st) = false) /\
  (currentDayTasks st = [] -> currentDayHours st == 0).

(** The days of the schedule are a greedy cut of the tasks placed so far. *)
Definition inv_packing (tz : TimeZone) (inputData : Input.t) (st : State)
  : Prop :=
  let capacity := Input.workingHoursPerDay inputData in
  exists (segs : list (list Task)) (cur : list Task),
    Forall2 (fun d seg => Day.tasks d = entries 0 seg /\
                          Day.totalHours d = offset_after 0 seg)
            (schedule st) segs /\
    currentDayTasks st = entries 0 cur /\
    currentDayHours st = offset_after 0 cur /\
    List.concat segs ++ cur
    = firstn (taskIndex st) (Input.tasks inputData) /\
    Forall (fun seg => seg <> []) segs /\
    greedy_cut capacity segs /\
    (forall pre s t,
        segs = pre ++ [s] ->
        nth_error (Input.tasks inputData) (List.length (List.concat segs))
        = Some t ->
        capacity < offset_after 0 s + estimatedHours t) /\
    (currentDayTasks st <> [] ->
     Input.excludeWeekends inputData && isWeekend tz (currentDate st)
     = false).

(** ** The [analyze-tasks] step

    The agent is asked about every task in turn.  What the [try] block makes
    of its answer is an input of the model: [None] when the block throws
    (the text holds no JSON object that parses), otherwise the [priority]
    and [reasoning] members of the parsed object, each of which may be
    missing.  A priority that is present is an integer, as the prompt
    asks.  The clock read by [new Date()] in the [catch] block is an input
    as well, in milliseconds. *)

(** [taskSchema.priority]. *)
Inductive PriorityLevel : Type := low | medium | high | urgent.

Module Raw.
  (** An element of [taskListSchema.tasks].  A [deadline] of [None] is an
      absent or empty string. *)
Record t : Type := {
  id : string;
  title : string;
  description : option string;
  estimatedHours : Q;
  deadline : option DateValue;
  priority : option PriorityLevel;
  category : option string
}.
End Raw.

Module Parsed.
  (** The object that [JSON.parse] yields, as far as the step reads it. *)
Record t : Type := {
  priority : option Z;
  reasoning : option string
}.
End Parsed.

(** What the step can throw. *)
Inductive AnalysisError : Type :=
| AgentNotFoundUsingFallback.
  (* new Error("Agent not found - using weatherAgent as fallback") *)

(** [x || d] for a number: [undefined], [null] and [0] give way to [d]. *)
Definition number_or (x : option Z) (d : Z) : Z :=
  match x with
  | None => d
  | Some v => if (v =? 0)%Z then d else v
  end.

(** [x || d] for a string: [undefined], [null] and [""] give way to [d]. *)
Definition string_or (x : option string) (d : string) : string :=
  match x with
  | None => d
  | Some v => if String.eqb v "" then d else v
  end.

(** [Math.ceil]. *)
Definition Math_ceil (x : Q) : Z := Qceiling x.

(** [Math.max(1, Math.min(10, parsed.priority || 5))]. *)
Definition clampedPriority (parsed : Parsed.t) : Z :=
  Z.max 1 (Z.min 10 (number_or (Parsed.priority parsed) 5)).

(** The priority that the [catch] block works out from the task's own
    [priority] and [deadline]; [today] is [new Date().getTime()]. *)
Definition ruleBasedPriority (today : Z) (task : Raw.t) : Z :=
  let defaultPriority :=
    match Raw.priority task with
    | Some urgent => 9
    | Some high => 7
    | Some medium => 5
    | Some low => 3
    | None => 5
    end%Z in
  match Raw.deadline task with
  | Some (Time deadlineDate) =>
      let daysUntilDeadline :=
        Math_ceil (inject_Z (deadlineDate - today)
                   / inject_Z (1000 * 60 * 60 * 24)) in
      if (daysUntilDeadline <=? 1)%Z then Z.min 10 (defaultPriority + 3)
      else if (daysUntilDeadline <=? 7)%Z then Z.min 10 (defaultPriority + 2)
      else if (daysUntilDeadline <=? 14)%Z then Z.min 10 (defaultPriority + 1)
      else defaultPriority
  | Some InvalidDate => defaultPriority   (* every comparison with NaN fails *)
  | None => defaultPriority
  end.

(** One turn of the [for] loop: the task with its priority and reasoning. *)
Definition analyzeTask (answer : option Parsed.t) (today : Z) (task : Raw.t)
  : Task :=
  match answer with
  | Some parsed =>
      {| id := Raw.id task;
         title := Raw.title task;
         estimatedHours := Raw.estimatedHours task;
         aiPriority := clampedPriority parsed;
         reasoning := string_or (Parsed.reasoning parsed) "AI分析により決定" |}
  | None =>
      {| id := Raw.id task;
         title := Raw.title task;
         estimatedHours := Raw.estimatedHours task;
         aiPriority := ruleBasedPriority today task;
         reasoning := "ルールベースで決定された優先順位" |}
  end.

(** [for (const [index, task] of tasks.entries())], from [index] on. *)
Fixpoint analyzeFrom (answers : nat -> option Parsed.t) (clock : nat -> Z)
         (index : nat) (tasks : list Raw.t) : list Task :=
  match tasks with
  | [] => []
  | task :: rest =>
      analyzeTask (answers index) (clock index) task
      :: analyzeFrom answers clock (S index) rest
  end.

(** [prioritizedTasks.sort((a, b) => b.aiPriority - a.aiPriority)]:
    [Array.prototype.sort] is stable, so the comparator fixes the result;
    it is computed here by insertion. *)
Fixpoint insertByPriority (t : Task) (sorted : list Task) : list Task :=
  match sorted with
  | [] => [t]
  | x :: rest =>
      if (aiPriority t <? aiPriority x)%Z then x :: insertByPriority t rest
      else t :: sorted
  end.

Definition sortByPriority (l : list Task) : list Task :=
  fold_right insertByPriority [] l.

(** [analyzeTasks.execute]. *)
Definition analyzeTasks (mastra : option Mastra)
           (answers : nat -> option Parsed.t) (clock : nat -> Z)
           (tasks : list Raw.t) : AnalysisError + list Task :=
  match lookupAgent mastra with
  | None => inl AgentNotFoundUsingFallback
  | Some _ => inr (sortByPriority (analyzeFrom answers clock 0 tasks))
  end.

(** The sample tasks of [scripts/sample-workflows.js], as far as the rules
    read them, on 2024-01-15 at midnight. *)
Definition sampleTask (i : string) (h : Q) (dl : option Z)
           (p : PriorityLevel) : Raw.t :=
  {| Raw.id := i; Raw.title := i; Raw.description := None;
     Raw.estimatedHours := h;
     Raw.deadline := option_map (fun d => Time (day_ms d)) dl;
     Raw.priority := Some p; Raw.category := None |}.

Definition sampleTasks : list Raw.t :=
  [ sampleTask "task1" 4 (Some 19742%Z) high;     (* deadline 2024-01-20 *)
    sampleTask "task2" 2 None medium;
    sampleTask "task3" 6 (Some 19747%Z) high;     (* deadline 2024-01-25 *)
    sampleTask "task4" 1 (Some 19740%Z) medium;   (* deadline 2024-01-18 *)
    sampleTask "task5" 3 None low ].

(** ** The loop *)

Section LoopFacts.

Variable tz : TimeZone.
Variable inputData : Input.t.

Abbreviation tasks := (Input.tasks inputData).
Abbreviation workingHoursPerDay := (Input.workingHoursPerDay inputData).
Abbreviation excludeWeekends := (Input.excludeWeekends inputData).

Lemma loop_unfold (fuel : nat) (st st' : State) (task : Task) :
  nth_error tasks (taskIndex st) = Some task ->
  body tz inputData st task = Returned st' ->
  loop tz inputData (S fuel) st = loop tz inputData fuel st'.
Proof.
  intros Hnth Hbody. simpl.
  assert (Hlt : (taskIndex st < List.length tasks)%nat).
  { apply nth_error_Some. congruence. }
  apply Nat.ltb_lt in Hlt. rewrite Hlt, Hnth, Hbody. reflexivity.
Qed.

Lemma loop_throw (fuel : nat) (st : State) (task : Task) (e : Error) :
  nth_error tasks (taskIndex st) = Some task ->
  body tz inputData st task = Threw e ->
  loop tz inputData (S fuel) st = Some (Threw e).
Proof.
  intros Hnth Hbody. simpl.
  assert (Hlt : (taskIndex st < List.length tasks)%nat).
  { apply nth_error_Some. congruence. }
  apply Nat.ltb_lt in Hlt. rewrite Hlt, Hnth, Hbody. reflexivity.
Qed.

Lemma loop_exit (fuel : nat) (st : State) :
  (List.length tasks <= taskIndex st)%nat ->
  loop tz inputData (S fuel) st = Some (Returned st).
Proof.
  intros Hge. simpl.
  apply Nat.ltb_ge in Hge. rewrite Hge. reflexivity.
Qed.

(** A turn of the loop throws nothing but the [RangeError] of
    [toISOString], and only when the current date is invalid. *)
Lemma body_throws (st : State) (task : Task) (e : Error) :
  body tz inputData st task = Threw e ->
  e = RangeError /\ currentDate st = InvalidDate.
Proof.
  unfold body, flushDay, pushDay, toISODate.
  destruct (currentDate st) as [|t]; [|
    repeat match goal with
           | |- context [if ?c then _ else _] => destruct c
           end; cbn [bind]; discriminate ].
  repeat match goal with
         | |- context [if ?c then _ else _] => destruct c
         end; cbn [bind]; intros H; inversion H; auto.
Qed.

(** The guard protects the array access: the loop throws nothing but that
    [RangeError]. *)
Lemma loop_throws (fuel : nat) :
  forall st e, loop tz inputData fuel st = Some (Threw e) -> e = RangeError.
Proof.
  induction fuel as [|fuel IH]; intros st e; simpl; [discriminate|].
  destruct (taskIndex st <? List.length tasks)%nat eqn:Hlt; [|discriminate].
  destruct (nth_error tasks (taskIndex st)) as [task|] eqn:Hnth.
  - destruct (body tz inputData st task) as [e'|st'] eqn:Hbody.
    + intros H. inversion H; subst e'. now apply body_throws in Hbody.
    + apply IH.
  - apply Nat.ltb_lt in Hlt. apply nth_error_None in Hnth. lia.
Qed.

(** Invariant rule for the loop. *)
Lemma loop_invariant (P : State -> Prop) :
  (forall st st' task,
      nth_error tasks (taskIndex st) = Some task ->
      body tz inputData st task = Returned st' ->
      P st -> P st') ->
  forall fuel st st',
    P st ->
    loop tz inputData fuel st = Some (Returned st') ->
    P st' /\ (List.length tasks <= taskIndex st')%nat.
Proof.
  intros Hstep fuel.
  induction fuel as [|fuel IH]; intros st st' HP Hloop; simpl in Hloop;
    [discriminate|].
  destruct (taskIndex st <? List.length tasks)%nat eqn:Hlt.
  - destruct (nth_error tasks (taskIndex st)) as [task|] eqn:Hnth;
      [|discriminate].
    destruct (body tz inputData st task) as [e|st1] eqn:Hbody;
      [discriminate|].
    apply (IH st1); auto. now apply (Hstep st st1 task).
  - inversion Hloop; subst st'. split; [assumption|].
    now apply Nat.ltb_ge.
Qed.

(** Invariant rule for the runs of the loop that end: a turn may rely on
    the loop ending after it. *)
Lemma loop_invariant_returning (P : State -> Prop) :
  (forall st st' task,
      nth_error tasks (taskIndex st) = Some task ->
      body tz inputData st task = Returned st' ->
      P st ->
      (exists fuel st'', loop tz inputData fuel st' = Some (Returned st'')) ->
      P st') ->
  forall fuel st st',
    P st ->
    loop tz inputData fuel st = Some (Returned st') ->
    P st' /\ (List.length tasks <= taskIndex st')%nat.
Proof.
  intros Hstep fuel.
  induction fuel as [|fuel IH]; intros st st' HP Hloop; simpl in Hloop;
    [discriminate|].
  destruct (taskIndex st <? List.length tasks)%nat eqn:Hlt.
  - destruct (nth_error tasks (taskIndex st)) as [task|] eqn:Hnth;
      [|discriminate].
    destruct (body tz inputData st task) as [e|st1] eqn:Hbody;
      [discriminate|].
    apply (IH st1); auto. apply (Hstep st st1 task); auto.
    now exists fuel, st'.
  - inversion Hloop; subst st'. split; [assumption|].
    now apply Nat.ltb_ge.
Qed.

Lemma loop_succ_fuel (fuel : nat) :
  forall st r, loop tz inputData fuel st = Some r ->
               loop tz inputData (S fuel) st = Some r.
Proof.
  induction fuel as [|fuel IH]; intros st r H; [discriminate|].
  cbn [loop] in H. cbn [loop].
  destruct (taskIndex st <? List.length tasks)%nat; [|exact H].
  destruct (nth_error tasks (taskIndex st)) as [task|]; [|exact H].
  destruct (body tz inputData st task) as [e|st1]; [exact H|].
  apply IH, H.
Qed.

Lemma loop_more_fuel (k fuel : nat) (st : State) (r : Outcome State) :
  loop tz inputData fuel st = Some r ->
  loop tz inputData (k + fuel) st = Some r.
Proof.
  intros H. induction k as [|k IH]; [exact H|].
  apply loop_succ_fuel, IH.
Qed.

Lemma reaches_in_refl (st : State) : reaches_in tz inputData 0 st st.
Proof. intros fuel r H. exact H. Qed.

Lemma reaches_in_trans (j k : nat) (st1 st2 st3 : State) :
  reaches_in tz inputData j st1 st2 -> reaches_in tz inputData k st2 st3 ->
  reaches_in tz inputData (j + k) st1 st3.
Proof.
  intros H12 H23 fuel r H. rewrite <- Nat.add_assoc. apply H12, H23, H.
Qed.

Lemma reaches_in_body (st st' : State) (task : Task) :
  nth_error tasks (taskIndex st) = Some task ->
  body tz inputData st task = Returned st' ->
  reaches_in tz inputData 1 st st'.
Proof.
  intros Hnth Hbody fuel r H. change (1 + fuel)%nat with (S fuel).
  now rewrite (loop_unfold fuel st st' task Hnth Hbody).
Qed.

Lemma reaches_in_weaken (j k : nat) (st st1 : State) :
  (j <= k)%nat -> reaches_in tz inputData j st st1 ->
  reaches_in tz inputData k st st1.
Proof.
  intros Hle H fuel r Hloop.
  replace (k + fuel)%nat with ((k - j) + (j + fuel))%nat by lia.
  apply loop_more_fuel, H, Hloop.
Qed.

End LoopFacts.

(** ** Invariants of the loop *)

Ltac state_simpl :=
  cbn [schedule currentDate currentDayHours currentDayTasks taskIndex
       totalScheduledHours Day.date Day.tasks Day.totalHours
       List.length Nat.ltb Nat.leb] in *.

(** The turns of the loop that do not throw, branch by branch: the weekend
    with an empty day and with a filled one, the task that fits, the task
    that does not fit an empty day and a filled one. *)
Ltac body_cases st st' Hbody :=
  unfold body, flushDay, pushDay, toISODate in Hbody;
  destruct (Input.excludeWeekends _ && isWeekend _ (currentDate st)) eqn:Hwk;
  [ destruct (currentDayTasks st) as [|a0 cur0] eqn:Hcur
  | destruct (Qle_bool _ _) eqn:Hfit;
    [ | destruct (currentDayTasks st) as [|a0 cur0] eqn:Hcur ] ];
  cbn [List.length Nat.ltb Nat.leb] in Hbody;
  try (destruct (currentDate st) as [|tnow] eqn:Hdate; cbn [bind] in Hbody;
       [discriminate|]);
  cbn [bind] in Hbody; inversion Hbody; try subst st'; clear Hbody;
  state_simpl.

Lemma firstn_succ_nth {A : Type} (l : list A) (i : nat) (x : A) :
  nth_error l i = Some x -> firstn (S i) l = firstn i l ++ [x].
Proof.
  revert i. induction l as [|y l IH]; intros [|i] H; simpl in *;
    try discriminate.
  - congruence.
  - f_equal. now apply IH.
Qed.

Lemma days_ids_snoc (ds : list Day.t) (d : Day.t) :
  days_ids (ds ++ [d]) = days_ids ds ++ map taskId (Day.tasks d).
Proof.
  unfold days_ids. rewrite flat_map_app. simpl. now rewrite app_nil_r.
Qed.

Lemma days_hours_snoc (ds : list Day.t) (d : Day.t) :
  days_hours (ds ++ [d]) == days_hours ds + Day.totalHours d.
Proof.
  induction ds as [|d0 ds IH]; simpl.
  - ring.
  - rewrite IH. ring.
Qed.

Lemma tasks_hours_snoc (ts : list Task) (t : Task) :
  tasks_hours (ts ++ [t]) == tasks_hours ts + estimatedHours t.
Proof.
  induction ts as [|t0 ts IH]; simpl.
  - ring.
  - rewrite IH. ring.
Qed.

(** What [flushDay] returns: the days as they are, or with the current day
    added under the UTC day of the current date. *)
Lemma flushDay_returned (st : State) (days : list Day.t) :
  flushDay st = Returned days ->
  (currentDayTasks st = [] /\ days = schedule st) \/
  (exists t, currentDate st = Time t /\ currentDayTasks st <> [] /\
             days = schedule st ++
                      [ {| Day.date := (t / msPerDay)%Z;
                           Day.tasks := currentDayTasks st;
                           Day.totalHours := currentDayHours st |} ]).
Proof.
  unfold flushDay, pushDay, toISODate.
  destruct (currentDayTasks st) as [|a cur]; cbn [List.length Nat.ltb Nat.leb].
  - intros H. inversion H. now left.
  - destruct (currentDate st) as [|t]; cbn [bind]; [discriminate|].
    intros H. inversion H. right. exists t. repeat split. discriminate.
Qed.

Section Invariants.

Variable tz : TimeZone.
Variable inputData : Input.t.

Abbreviation tasks := (Input.tasks inputData).
Abbreviation workingHoursPerDay := (Input.workingHoursPerDay inputData).
Abbreviation excludeWeekends := (Input.excludeWeekends inputData).

(** The ids handed out so far are those of the first [taskIndex] tasks, in
    their order. *)
Lemma ids_preserved (st st' : State) (task : Task) :
  nth_error tasks (taskIndex st) = Some task ->
  body tz inputData st task = Returned st' ->
  inv_ids inputData st -> inv_ids inputData st'.
Proof.
  intros Hnth Hbody. unfold inv_ids, scheduled_ids.
  body_cases st st' Hbody; intros H;
    rewrite ?days_ids_snoc, ?app_nil_r in *; auto.
  rewrite (firstn_succ_nth _ _ _ Hnth), !map_app, app_assoc, H.
  reflexivity.
Qed.

Lemma nonempty_preserved (st st' : State) (task : Task) :
  body tz inputData st task = Returned st' ->
  inv_nonempty st -> inv_nonempty st'.
Proof.
  intros Hbody. unfold inv_nonempty.
  body_cases st st' Hbody; intros H; auto;
    apply Forall_app; split; auto; constructor; auto; discriminate.
Qed.

Lemma capacity_preserved (st st' : State) (task : Task) :
  body tz inputData st task = Returned st' ->
  inv_capacity inputData st -> inv_capacity inputData st'.
Proof.
  intros Hbody. unfold inv_capacity.
  body_cases st st' Hbody; intros [Hd Hc]; split; auto; try congruence.
  - apply Forall_app; split; auto. constructor; auto.
    apply Hc. discriminate.
  - intros _. now apply Qle_bool_iff.
  - apply Forall_app; split; auto. constructor; auto.
    apply Hc. discriminate.
Qed.

Lemma hours_preserved (st st' : State) (task : Task) :
  nth_error tasks (taskIndex st) = Some task ->
  body tz inputData st task = Returned st' ->
  inv_hours inputData st -> inv_hours inputData st'.
Proof.
  intros Hnth Hbody. unfold inv_hours.
  body_cases st st' Hbody; intros (Hsum & Hzero & Htot);
    rewrite ?days_hours_snoc; state_simpl;
    repeat split; auto; try discriminate; try reflexivity;
    try (rewrite Hsum; ring).
  - intros Hnil. now apply app_eq_nil in Hnil as [_ ?].
  - rewrite (firstn_succ_nth _ _ _ Hnth), tasks_hours_snoc, Htot.
    reflexivity.
  - specialize (Hzero eq_refl). rewrite Hsum, Hzero. ring.
Qed.

Lemma contiguous_snoc (h : Q) (l : list ScheduledTask) (seg : list Task)
      (a : ScheduledTask) (t : Task) :
  contiguous h l seg ->
  taskId a = id t ->
  startTime a = formatTime (offset_after h seg) ->
  endTime a = formatTime (offset_after h seg + estimatedHours t) ->
  contiguous h (l ++ [a]) (seg ++ [t]).
Proof.
  induction 1 as [h|h a' t' rest seg Hid Hst Hen Hc IH]; intros Ha Hs He;
    simpl.
  - constructor; auto. constructor.
  - constructor; auto.
Qed.

Lemma contiguous_nil_inv (h : Q) (seg : list Task) :
  contiguous h [] seg -> seg = [].
Proof. now inversion 1. Qed.

Lemma layout_preserved (st st' : State) (task : Task) :
  nth_error tasks (taskIndex st) = Some task ->
  body tz inputData st task = Returned st' ->
  inv_layout inputData st -> inv_layout inputData st'.
Proof.
  intros Hnth Hbody. unfold inv_layout.
  body_cases st st' Hbody; intros (segs & cur & Hdays & Hcurr & Hoff & Hcat).
  - exists segs, cur. auto.
  - exists (segs ++ [cur]), []. repeat split.
    + apply Forall2_app; auto.
    + constructor.
    + rewrite concat_app. simpl. now rewrite !app_nil_r.
  - exists segs, (cur ++ [task]). repeat split; auto.
    + apply contiguous_snoc; auto; simpl; now rewrite Hoff.
    + unfold offset_after in *. rewrite fold_left_app. simpl. now rewrite Hoff.
    + rewrite (firstn_succ_nth _ _ _ Hnth), app_assoc, Hcat. reflexivity.
  - apply contiguous_nil_inv in Hcurr. subst cur.
    exists segs, []. repeat split; auto. constructor.
  - exists (segs ++ [cur]), []. repeat split.
    + apply Forall2_app; auto.
    + constructor.
    + rewrite concat_app. simpl. now rewrite !app_nil_r.
Qed.

(** Where moving a date by a local day moves its UTC day by one, the dates
    of the days increase. *)
Lemma dates_preserved (st st' : State) (task : Task) :
  next_day_is_next_utc_day tz ->
  body tz inputData st task = Returned st' ->
  inv_dates st -> inv_dates st'.
Proof.
  intros Htz Hbody. unfold inv_dates.
  assert (Hnext : forall t t' ds,
             addDays tz (Time t) 1 = Time t' ->
             Forall (fun d => (Day.date d < t / msPerDay)%Z) ds ->
             Forall (fun d => (Day.date d < t' / msPerDay)%Z) ds).
  { intros t t' ds Hadd. apply Forall_impl. intros d Hd.
    rewrite (Htz t t' Hadd). lia. }
  assert (Hpush : forall t t' ds l h,
             addDays tz (Time t) 1 = Time t' ->
             Forall (fun d => (Day.date d < t / msPerDay)%Z) ds ->
             Forall (fun d => (Day.date d < t' / msPerDay)%Z)
                    (ds ++ [ {| Day.date := (t / msPerDay)%Z; Day.tasks := l;
                                Day.totalHours := h |} ])).
  { intros t t' ds l h Hadd Hd. apply Forall_app. split.
    - now apply (Hnext t t').
    - constructor; auto. simpl. rewrite (Htz t t' Hadd). lia. }
  assert (Hsorted : forall t ds l h,
             StronglySorted Z.lt (map Day.date ds) ->
             Forall (fun d => (Day.date d < t / msPerDay)%Z) ds ->
             StronglySorted Z.lt
               (map Day.date
                    (ds ++ [ {| Day.date := (t / msPerDay)%Z; Day.tasks := l;
                                Day.totalHours := h |} ]))).
  { intros t ds l h Hs Hd. rewrite map_app. simpl.
    clear - Hs Hd. induction ds as [|d ds IH]; simpl in *.
    - repeat constructor.
    - inversion Hs; subst. inversion Hd; subst. constructor; auto.
      apply Forall_app. split; auto. }
  body_cases st st' Hbody; intros [Hs Hd]; split; auto;
    destruct (currentDate st) as [|t]; try discriminate;
    intros t' Hadd; apply (Hnext t t'); auto.
Qed.

(** Where the local day is the UTC day, the days pass the weekend test. *)
Lemma weekend_preserved (st st' : State) (task : Task) :
  local_day_is_utc_day tz ->
  excludeWeekends = true ->
  body tz inputData st task = Returned st' ->
  inv_weekend tz st -> inv_weekend tz st'.
Proof.
  intros Htz Hex Hbody. unfold inv_weekend.
  assert (Hday : forall t, isWeekend tz (Time t) = false ->
                           weekendDate (t / msPerDay) = false).
  { intros t. unfold isWeekend, getDay, weekendDate, weekday.
    now rewrite Htz. }
  body_cases st st' Hbody; rewrite Hex in Hwk; cbn [andb] in Hwk;
    intros [Hd Hc].
  - split; [exact Hd|]. intros Hne. now contradiction Hne.
  - exfalso. rewrite Hc in Hwk by discriminate. discriminate.
  - split; [exact Hd|]. intros _. exact Hwk.
  - split; [exact Hd|]. intros Hne. now contradiction Hne.
  - split; [|intros Hne; now contradiction Hne].
    apply Forall_app; split; [exact Hd|]. constructor; [|constructor].
    apply Hday. apply Hc. discriminate.
Qed.

End Invariants.

(** ** From the loop to the result of [execute] *)

Section Results.

Variable tz : TimeZone.
Variable inputData : Input.t.

Abbreviation tasks := (Input.tasks inputData).
Abbreviation workingHoursPerDay := (Input.workingHoursPerDay inputData).
Abbreviation excludeWeekends := (Input.excludeWeekends inputData).

(** A returned schedule is made of the state in which the loop ends: its
    days are what [flushDay] returns there. *)
Lemma execute_returned (fuel : nat) (mastra : option Mastra) (r : Schedule.t) :
  execute tz inputData fuel mastra = Some (Returned r) ->
  exists agent st days,
    lookupAgent mastra = Some agent /\
    loop tz inputData fuel (initial inputData) = Some (Returned st) /\
    flushDay st = Returned days /\
    r = {| Schedule.dailySchedule := days;
           Schedule.suggestions := trim (String.concat "" (textStream agent));
           Schedule.summary :=
             {| Summary.totalTasks := List.length tasks;
                Summary.totalHours := totalScheduledHours st;
                Summary.totalDays := List.length days;
                Summary.averageHoursPerDay :=
                  js_div (totalScheduledHours st)
                         (inject_Z (Z.of_nat (List.length days))) |} |}.
Proof.
  unfold execute. intros H.
  destruct (lookupAgent mastra) as [agent|]; [|discriminate].
  destruct (loop tz inputData fuel (initial inputData)) as [[e|st]|] eqn:Hloop;
    try discriminate.
  unfold finish in H.
  destruct (flushDay st) as [e|days] eqn:Hflush; cbn [bind] in H;
    [discriminate|].
  inversion H. now exists agent, st, days.
Qed.

(** When the loop ends, the code after it throws nothing: a day that holds
    a task was given it under a valid date. *)
Lemma loop_end_flushes (fuel : nat) (st : State) :
  loop tz inputData fuel (initial inputData) = Some (Returned st) ->
  exists days, flushDay st = Returned days.
Proof.
  intros Hloop. unfold flushDay, pushDay, toISODate.
  destruct (currentDayTasks st) as [|a cur] eqn:Hc0;
    cbn [List.length Nat.ltb Nat.leb]; [eexists; reflexivity|].
  destruct (currentDate st) as [|t] eqn:Hd0;
    cbn [bind]; [|eexists; reflexivity].
  exfalso.
  apply (loop_invariant tz inputData
           (fun s => currentDayTasks s <> [] ->
                     currentDate s <> InvalidDate)) in Hloop
    as [Hvalid _].
  - apply Hvalid; [rewrite Hc0; discriminate|exact Hd0].
  - intros st0 st1 task _ Hbody Hinv.
    body_cases st0 st1 Hbody; auto; try discriminate; try congruence.
  - intros Hne. now contradiction Hne.
Qed.

Lemma loop_end_returns (fuel : nat) (st : State) (mastra : option Mastra)
      (agent : Agent) :
  lookupAgent mastra = Some agent ->
  loop tz inputData fuel (initial inputData) = Some (Returned st) ->
  exists r, execute tz inputData fuel mastra = Some (Returned r).
Proof.
  intros Hagent Hloop.
  destruct (loop_end_flushes fuel st Hloop) as (days & Hflush).
  eexists. unfold execute, finish. rewrite Hagent, Hloop, Hflush.
  cbn [bind]. reflexivity.
Qed.

Lemma final_ids (fuel : nat) (mastra : option Mastra) (r : Schedule.t) :
  execute tz inputData fuel mastra = Some (Returned r) ->
  days_ids (Schedule.dailySchedule r) = map id tasks.
Proof.
  intros H.
  apply execute_returned in H as (agent & st & days & _ & Hloop & Hflush & ->).
  apply (loop_invariant tz inputData (inv_ids inputData)) in Hloop
    as [Hinv Hend].
  - unfold inv_ids, scheduled_ids in Hinv.
    rewrite firstn_all2 in Hinv by assumption.
    cbn [Schedule.dailySchedule]. rewrite <- Hinv.
    destruct (flushDay_returned _ _ Hflush)
      as [[Hnil ->]|(t & _ & _ & ->)].
    + rewrite Hnil. simpl. now rewrite app_nil_r.
    + now rewrite days_ids_snoc.
  - intros st0 st1 task Hnth Hbody. now apply (ids_preserved tz inputData st0 st1 task).
  - reflexivity.
Qed.

Lemma final_capacity (fuel : nat) (mastra : option Mastra) (r : Schedule.t) :
  execute tz inputData fuel mastra = Some (Returned r) ->
  Forall (fun d => Day.totalHours d <= workingHoursPerDay)
         (Schedule.dailySchedule r).
Proof.
  intros H.
  apply execute_returned in H as (agent & st & days & _ & Hloop & Hflush & ->).
  apply (loop_invariant tz inputData (inv_capacity inputData)) in Hloop
    as [[Hdays Hcur] _].
  - cbn [Schedule.dailySchedule].
    destruct (flushDay_returned _ _ Hflush)
      as [[Hnil ->]|(t & _ & Hne & ->)]; auto.
    apply Forall_app; split; auto.
  - intros st0 st1 task _ Hbody.
    now apply (capacity_preserved tz inputData st0 st1 task).
  - split; [constructor|]. intros Hne. now contradiction Hne.
Qed.

Lemma final_weekend (fuel : nat) (mastra : option Mastra) (r : Schedule.t) :
  local_day_is_utc_day tz ->
  excludeWeekends = true ->
  execute tz inputData fuel mastra = Some (Returned r) ->
  Forall (fun d => weekendDate (Day.date d) = false)
         (Schedule.dailySchedule r).
Proof.
  intros Htz Hex H.
  apply execute_returned in H as (agent & st & days & _ & Hloop & Hflush & ->).
  apply (loop_invariant tz inputData (inv_weekend tz)) in Hloop
    as [[Hdays Hcur] _].
  - cbn [Schedule.dailySchedule].
    destruct (flushDay_returned _ _ Hflush)
      as [[Hnil ->]|(t & Hdate & Hne & ->)]; auto.
    apply Forall_app; split; auto. constructor; auto. simpl.
    specialize (Hcur Hne). rewrite Hdate in Hcur.
    unfold isWeekend, getDay in Hcur. rewrite Htz in Hcur. exact Hcur.
  - intros st0 st1 task _ Hbody.
    now apply (weekend_preserved tz inputData st0 st1 task).
  - split; [constructor|]. intros Hne. now contradiction Hne.
Qed.

Lemma final_nonempty (fuel : nat) (mastra : option Mastra) (r : Schedule.t) :
  execute tz inputData fuel mastra = Some (Returned r) ->
  Forall (fun d => Day.tasks d <> []) (Schedule.dailySchedule r).
Proof.
  intros H.
  apply execute_returned in H as (agent & st & days & _ & Hloop & Hflush & ->).
  apply (loop_invariant tz inputData inv_nonempty) in Hloop as [Hdays _].
  - cbn [Schedule.dailySchedule].
    destruct (flushDay_returned _ _ Hflush)
      as [[Hnil ->]|(t & _ & Hne & ->)]; auto.
    apply Forall_app; split; auto.
  - intros st0 st1 task _ Hbody.
    now apply (nonempty_preserved tz inputData st0 st1 task).
  - constructor.
Qed.

Lemma final_dates (fuel : nat) (mastra : option Mastra) (r : Schedule.t) :
  next_day_is_next_utc_day tz ->
  execute tz inputData fuel mastra = Some (Returned r) ->
  StronglySorted Z.lt (map Day.date (Schedule.dailySchedule r)).
Proof.
  intros Htz H.
  apply execute_returned in H as (agent & st & days & _ & Hloop & Hflush & ->).
  apply (loop_invariant tz inputData inv_dates) in Hloop as [[Hs Hd] _].
  - cbn [Schedule.dailySchedule].
    destruct (flushDay_returned _ _ Hflush)
      as [[Hnil ->]|(t & Hdate & _ & ->)]; auto.
    specialize (Hd t Hdate). rewrite map_app. simpl.
    clear - Hs Hd. induction (schedule st) as [|d ds IH]; simpl in *.
    + repeat constructor.
    + inversion Hs; subst. inversion Hd; subst. constructor; auto.
      apply Forall_app. split; auto.
  - intros st0 st1 task _ Hbody.
    now apply (dates_preserved tz inputData st0 st1 task).
  - split; [constructor|]. intros t _. constructor.
Qed.

Lemma final_hours (fuel : nat) (mastra : option Mastra) (r : Schedule.t) :
  execute tz inputData fuel mastra = Some (Returned r) ->
  let s := Schedule.summary r in
  Summary.totalHours s == days_hours (Schedule.dailySchedule r) /\
  Summary.totalHours s == tasks_hours tasks.
Proof.
  intros H.
  apply execute_returned in H as (agent & st & days & _ & Hloop & Hflush & ->).
  apply (loop_invariant tz inputData (inv_hours inputData)) in Hloop
    as [(Hsum & Hzero & Htot) Hend].
  - rewrite firstn_all2 in Htot by assumption.
    cbv zeta. cbn [Schedule.dailySchedule Schedule.summary Summary.totalHours].
    split; [|exact Htot].
    destruct (flushDay_returned _ _ Hflush)
      as [[Hnil ->]|(t & _ & _ & ->)].
    + rewrite Hsum, (Hzero Hnil). ring.
    + rewrite days_hours_snoc. exact Hsum.
  - intros st0 st1 task Hnth Hbody.
    now apply (hours_preserved tz inputData st0 st1 task).
  - repeat split; simpl; try reflexivity.
Qed.

Lemma final_layout (fuel : nat) (mastra : option Mastra) (r : Schedule.t) :
  execute tz inputData fuel mastra = Some (Returned r) ->
  exists segs : list (list Task),
    List.concat segs = tasks /\
    Forall2 (fun d seg => contiguous 0 (Day.tasks d) seg)
            (Schedule.dailySchedule r) segs.
Proof.
  intros H.
  apply execute_returned in H as (agent & st & days & _ & Hloop & Hflush & ->).
  apply (loop_invariant tz inputData (inv_layout inputData)) in Hloop
    as [(segs & cur & Hdays & Hcur & _ & Hcat) Hend].
  - rewrite firstn_all2 in Hcat by assumption.
    cbn [Schedule.dailySchedule].
    destruct (flushDay_returned _ _ Hflush)
      as [[Hnil ->]|(t & _ & _ & ->)].
    + rewrite Hnil in Hcur. apply contiguous_nil_inv in Hcur. subst cur.
      exists segs. rewrite app_nil_r in Hcat. auto.
    + exists (segs ++ [cur]). split.
      * rewrite concat_app. simpl. now rewrite app_nil_r.
      * apply Forall2_app; auto.
  - intros st0 st1 task Hnth Hbody.
    now apply (layout_preserved tz inputData st0 st1 task).
  - exists [], []. repeat split; constructor.
Qed.

End Results.

(** ** Progress and divergence of the loop *)

(** Of three consecutive days, one is no Saturday and no Sunday. *)
Lemma weekend_at_most_two (d : Z) :
  weekendDate d = true -> weekendDate (d + 1) = true ->
  weekendDate (d + 1 + 1) = false.
Proof.
  unfold weekendDate, weekday. intros H1 H2.
  apply orb_true_iff in H1. apply orb_true_iff in H2.
  apply orb_false_iff.
  rewrite !Z.eqb_eq in *. rewrite !Z.eqb_neq.
  pose proof (Z.mod_pos_bound (d + 4) 7 eq_refl) as B0.
  pose proof (Z.div_mod (d + 4) 7 ltac:(lia)) as E0.
  pose proof (Z.mod_pos_bound (d + 1 + 4) 7 eq_refl) as B1.
  pose proof (Z.div_mod (d + 1 + 4) 7 ltac:(lia)) as E1.
  pose proof (Z.mod_pos_bound (d + 1 + 1 + 4) 7 eq_refl) as B2.
  pose proof (Z.div_mod (d + 1 + 1 + 4) 7 ltac:(lia)) as E2.
  lia.
Qed.

(** *** The UTC runtime *)

Lemma next_utc_day (t : Z) :
  ((t + msPerDay) / msPerDay = t / msPerDay + 1)%Z.
Proof.
  replace (t + msPerDay)%Z with (t + 1 * msPerDay)%Z by lia.
  apply Z.div_add. discriminate.
Qed.

Lemma isWeekend_utc (t : Z) :
  isWeekend utc (Time t) = weekendDate (t / msPerDay).
Proof.
  unfold isWeekend, getDay, localTime, weekendDate, weekday.
  cbn [utc offsetAt]. now rewrite Z.add_0_r.
Qed.

Lemma addDays_utc (t : Z) :
  (- maxTime <= t)%Z -> (t + msPerDay <= maxTime)%Z ->
  addDays utc (Time t) 1 = Time (t + msPerDay).
Proof.
  intros Hlo Hhi. unfold addDays, setDatePlus, localTime, timeClip.
  cbn [utc offsetAt utcOfLocal].
  replace (t + 0 + 1 * msPerDay)%Z with (t + msPerDay)%Z by lia.
  assert (H : (Z.abs (t + msPerDay) <=? maxTime)%Z = true).
  { apply Z.leb_le. unfold msPerDay, maxTime in *. lia. }
  now rewrite H.
Qed.

Lemma utc_local_day : local_day_is_utc_day utc.
Proof.
  intros t. unfold localTime. cbn [utc offsetAt]. now rewrite Z.add_0_r.
Qed.

Lemma utc_next_day : next_day_is_next_utc_day utc.
Proof.
  intros t t'. unfold addDays, setDatePlus, localTime, timeClip.
  cbn [utc offsetAt utcOfLocal].
  replace (t + 0 + 1 * msPerDay)%Z with (t + msPerDay)%Z by lia.
  destruct (Z.abs (t + msPerDay) <=? maxTime)%Z; [|discriminate].
  intros H. inversion H. apply next_utc_day.
Qed.

Lemma room_weaken (b b' : nat) (st : State) :
  (b' <= b)%nat -> room b st -> room b' st.
Proof.
  intros Hle (t & Hdate & Hlo & Hhi). exists t. repeat split; auto.
  unfold msPerDay, maxTime in *. lia.
Qed.

Section Progress.

Variable inputData : Input.t.

Abbreviation tasks := (Input.tasks inputData).
Abbreviation workingHoursPerDay := (Input.workingHoursPerDay inputData).
Abbreviation excludeWeekends := (Input.excludeWeekends inputData).

(** At most two turns are spent on skipping a weekend. *)
Lemma skip_to_working_day_in (b : nat) (st : State) (task : Task) :
  nth_error tasks (taskIndex st) = Some task ->
  currentDayTasks st = [] ->
  room (b + 2) st ->
  exists st1,
    reaches_in utc inputData 2 st st1 /\
    taskIndex st1 = taskIndex st /\
    currentDayTasks st1 = [] /\
    currentDayHours st1 = currentDayHours st /\
    excludeWeekends && isWeekend utc (currentDate st1) = false /\
    room b st1.
Proof.
  intros Hnth Hcur Hroom.
  destruct (excludeWeekends && isWeekend utc (currentDate st)) eqn:Hw0.
  2:{ exists st. repeat split; auto.
      - apply (reaches_in_weaken utc inputData 0); [lia|apply reaches_in_refl].
      - apply (room_weaken (b + 2)); [lia|assumption]. }
  destruct Hroom as (t & Hdate & Hlo & Hhi).
  pose (st1 := {| schedule := schedule st;
                  currentDate := Time (t + msPerDay);
                  currentDayHours := currentDayHours st;
                  currentDayTasks := [];
                  taskIndex := taskIndex st;
                  totalScheduledHours := totalScheduledHours st |}).
  assert (B1 : body utc inputData st task = Returned st1).
  { unfold body. rewrite Hw0, Hcur. cbn [List.length Nat.ltb Nat.leb].
    rewrite Hdate, addDays_utc; [reflexivity|assumption|].
    unfold msPerDay, maxTime in *. lia. }
  assert (R1 : reaches_in utc inputData 1 st st1)
    by now apply (reaches_in_body utc inputData st st1 task).
  destruct (excludeWeekends && isWeekend utc (currentDate st1)) eqn:Hw1.
  2:{ exists st1. repeat split; auto.
      - apply (reaches_in_weaken utc inputData 1); [lia|exact R1].
      - exists (t + msPerDay)%Z. repeat split.
        all: unfold msPerDay, maxTime in *; lia. }
  pose (st2 := {| schedule := schedule st;
                  currentDate := Time (t + msPerDay + msPerDay);
                  currentDayHours := currentDayHours st;
                  currentDayTasks := [];
                  taskIndex := taskIndex st;
                  totalScheduledHours := totalScheduledHours st |}).
  assert (B2 : body utc inputData st1 task = Returned st2).
  { unfold body. rewrite Hw1. cbn [st1 currentDayTasks List.length Nat.ltb
                                     Nat.leb currentDate].
    rewrite addDays_utc; [reflexivity| |];
      unfold msPerDay, maxTime in *; lia. }
  assert (R2 : reaches_in utc inputData 1 st1 st2).
  { apply (reaches_in_body utc inputData st1 st2 task); auto. }
  exists st2. split; [exact (reaches_in_trans utc inputData 1 1 _ _ _ R1 R2)|].
  repeat split; auto.
  - cbn [st2 currentDate]. rewrite isWeekend_utc, !next_utc_day.
    rewrite Hdate, isWeekend_utc in Hw0.
    cbn [st1 currentDate] in Hw1. rewrite isWeekend_utc, next_utc_day in Hw1.
    apply andb_true_iff in Hw0 as [Hex Hd0].
    apply andb_true_iff in Hw1 as [_ Hd1].
    rewrite (weekend_at_most_two _ Hd0 Hd1). apply andb_false_r.
  - exists (t + msPerDay + msPerDay)%Z. repeat split.
    all: unfold msPerDay, maxTime in *; lia.
Qed.

Lemma place_on_empty_day_in (b : nat) (st : State) (task : Task) :
  nth_error tasks (taskIndex st) = Some task ->
  estimatedHours task <= workingHoursPerDay ->
  currentDayTasks st = [] ->
  currentDayHours st == 0 ->
  room (b + 2) st ->
  exists st',
    reaches_in utc inputData 3 st st' /\
    taskIndex st' = S (taskIndex st) /\
    currentDayTasks st' <> [] /\
    room b st'.
Proof.
  intros Hnth Hle Hcur Hzero Hroom.
  destruct (skip_to_working_day_in b st task Hnth Hcur Hroom)
    as (st1 & R1 & Hidx & Hcur1 & Hh1 & Hw1 & (t & Hdate & Hlo & Hhi)).
  assert (Hfit : Qle_bool (currentDayHours st1 + estimatedHours task)
                          workingHoursPerDay = true).
  { apply Qle_bool_iff. rewrite Hh1, Hzero. now rewrite Qplus_0_l. }
  eexists. split; [|split; [|split]].
  - apply (reaches_in_trans utc inputData 2 1 _ st1); [exact R1|].
    apply (reaches_in_body utc inputData st1 _ task); [now rewrite Hidx|].
    unfold body. rewrite Hw1, Hfit. unfold toISODate. rewrite Hdate.
    cbn [bind]. reflexivity.
  - simpl. congruence.
  - simpl. intros Hnil. now apply app_eq_nil in Hnil as [_ ?].
  - exists t. simpl. auto.
Qed.

(** A task within the capacity is placed within four turns: one that closes
    the day, two over a weekend, one that places it. *)
Lemma advance_in (b : nat) (st : State) (task : Task) :
  nth_error tasks (taskIndex st) = Some task ->
  estimatedHours task <= workingHoursPerDay ->
  (currentDayTasks st = [] -> currentDayHours st == 0) ->
  room (b + 4) st ->
  exists st',
    reaches_in utc inputData 4 st st' /\
    taskIndex st' = S (taskIndex st) /\
    currentDayTasks st' <> [] /\
    room b st'.
Proof.
  intros Hnth Hle Hzero (t & Hnow & Hlo & Hhi).
  assert (Hadd : addDays utc (Time t) 1 = Time (t + msPerDay)).
  { apply addDays_utc; auto. unfold msPerDay, maxTime in *. lia. }
  assert (Hroom' : forall st1, currentDate st1 = Time (t + msPerDay) ->
                               room (b + 2) st1).
  { intros st1 H1. exists (t + msPerDay)%Z. repeat split; auto.
    all: unfold msPerDay, maxTime in *; lia. }
  destruct (body utc inputData st task) as [e|st1] eqn:Hbody.
  { apply body_throws in Hbody as [_ Hinv]. congruence. }
  assert (Hnext :
    taskIndex st1 = taskIndex st ->
    currentDayTasks st1 = [] ->
    currentDayHours st1 == 0 ->
    currentDate st1 = Time (t + msPerDay) ->
    exists st',
      reaches_in utc inputData 4 st st' /\
      taskIndex st' = S (taskIndex st) /\
      currentDayTasks st' <> [] /\
      room b st').
  { intros Hidx Hcur Hh Hd1.
    destruct (place_on_empty_day_in b st1 task)
      as (st' & R' & Hidx' & Hne & Hr); auto; try congruence.
    exists st'. repeat split; auto; try congruence.
    apply (reaches_in_trans utc inputData 1 3 _ st1); auto.
    now apply (reaches_in_body utc inputData st st1 task). }
  assert (R : reaches_in utc inputData 1 st st1)
    by now apply (reaches_in_body utc inputData st st1 task).
  clear Hroom'.
  body_cases st st1 Hbody;
    try (inversion Hnow; subst tnow); rewrite ?Hnow in *.
  - apply Hnext; auto.
  - apply Hnext; auto; reflexivity.
  - eexists. split; [|split; [|split]].
    + apply (reaches_in_weaken utc inputData 1); [lia|exact R].
    + reflexivity.
    + simpl. intros Hnil. now apply app_eq_nil in Hnil as [_ ?].
    + exists t. simpl. repeat split; auto.
      unfold msPerDay, maxTime in *. lia.
  - apply Hnext; auto; reflexivity.
  - apply Hnext; auto; reflexivity.
Qed.

Lemma loop_terminates_in (n : nat) :
  Forall (fun t => estimatedHours t <= workingHoursPerDay) tasks ->
  forall st,
    (List.length tasks - taskIndex st = n)%nat ->
    (currentDayTasks st = [] -> currentDayHours st == 0) ->
    room (4 * n) st ->
    exists st', loop utc inputData (4 * n + 1) st = Some (Returned st').
Proof.
  intros Hall. induction n as [|n IH]; intros st Hn Hzero Hroom.
  - exists st. apply loop_exit. lia.
  - destruct (nth_error tasks (taskIndex st)) as [task|] eqn:Hnth.
    2:{ apply nth_error_None in Hnth. lia. }
    assert (Hle : estimatedHours task <= workingHoursPerDay).
    { apply nth_error_In in Hnth.
      now apply (proj1 (Forall_forall _ _) Hall). }
    destruct (advance_in (4 * n) st task Hnth Hle Hzero)
      as (st1 & R & Hidx & Hne & Hr).
    { apply (room_weaken (4 * S n)); [lia|assumption]. }
    destruct (IH st1) as (st' & Hloop); auto.
    + lia.
    + intros Hnil. contradiction.
    + exists st'. replace (4 * S n + 1)%nat with (4 + (4 * n + 1))%nat by lia.
      apply R, Hloop.
Qed.

End Progress.

Section Divergence.

Variable tz : TimeZone.
Variable inputData : Input.t.

Abbreviation tasks := (Input.tasks inputData).
Abbreviation workingHoursPerDay := (Input.workingHoursPerDay inputData).
Abbreviation excludeWeekends := (Input.excludeWeekends inputData).

(** A task larger than the capacity is offered an empty day again and
    again: the loop neither ends nor throws. *)
Lemma loop_stuck (fuel : nat) :
  forall st task,
    nth_error tasks (taskIndex st) = Some task ->
    workingHoursPerDay < estimatedHours task ->
    currentDayTasks st = [] ->
    currentDayHours st == 0 ->
    loop tz inputData fuel st = None.
Proof.
  induction fuel as [|fuel IH]; intros st task Hnth Hbig Hcur Hzero;
    [reflexivity|].
  assert (Hnofit : Qle_bool (currentDayHours st + estimatedHours task)
                            workingHoursPerDay = false).
  { destruct (Qle_bool _ _) eqn:Hfit; auto.
    apply Qle_bool_iff in Hfit. rewrite Hzero, Qplus_0_l in Hfit.
    exfalso. apply (Qlt_not_le _ _ Hbig Hfit). }
  assert (Hbody : exists st',
             body tz inputData st task = Returned st' /\
             taskIndex st' = taskIndex st /\
             currentDayTasks st' = [] /\
             currentDayHours st' == 0).
  { unfold body, flushDay. rewrite Hnofit, Hcur.
    destruct (excludeWeekends && isWeekend tz (currentDate st));
      cbn [List.length Nat.ltb Nat.leb bind]; eexists; split;
      try reflexivity; simpl; repeat split; auto; reflexivity. }
  destruct Hbody as (st' & Hbody & Hidx & Hcur' & Hzero').
  rewrite (loop_unfold tz inputData fuel st st' task Hnth Hbody).
  apply (IH st' task); auto. now rewrite Hidx.
Qed.

(** With positive durations, a task larger than the capacity anywhere
    ahead keeps the loop from ending: the tasks before it are placed, then
    it is offered one empty day after the other. *)
Lemma loop_never_passes_oversized (i : nat) (big : Task) :
  Forall (fun t => 0 < estimatedHours t) tasks ->
  nth_error tasks i = Some big ->
  workingHoursPerDay < estimatedHours big ->
  forall fuel st st',
    (taskIndex st <= i)%nat ->
    0 <= currentDayHours st ->
    loop tz inputData fuel st <> Some (Returned st').
Proof.
  intros Hpos Hbig Hover.
  induction fuel as [|fuel IH]; intros st st' Hidx Hh; [discriminate|].
  destruct (nth_error tasks (taskIndex st)) as [task|] eqn:Hnth.
  2:{ apply nth_error_None in Hnth.
      assert (i < List.length tasks)%nat by (apply nth_error_Some; congruence).
      lia. }
  destruct (body tz inputData st task) as [e|st1] eqn:Hbody.
  { rewrite (loop_throw tz inputData fuel st task e Hnth Hbody).
    discriminate. }
  rewrite (loop_unfold tz inputData fuel st st1 task Hnth Hbody).
  assert (Htask : 0 < estimatedHours task).
  { apply nth_error_In in Hnth.
    now apply (proj1 (Forall_forall _ _) Hpos). }
  apply IH; body_cases st st1 Hbody; auto; try apply Qle_refl.
  - apply Qle_bool_iff in Hfit.
    destruct (Nat.eq_dec (taskIndex st) i) as [E|E]; [|lia].
    exfalso. rewrite E, Hbig in Hnth. inversion Hnth; subst task.
    apply (Qlt_not_le _ _ Hover).
    apply Qle_trans with (currentDayHours st + estimatedHours big); auto.
    rewrite <- (Qplus_0_l (estimatedHours big)) at 1.
    apply Qplus_le_l. exact Hh.
  - apply Qlt_le_weak in Htask.
    rewrite <- (Qplus_0_l 0). now apply Qplus_le_compat.
Qed.

(** Once the date is invalid, the loop cannot end while a task is left:
    placing it renders the date. *)
Lemma loop_invalid_never_returns (fuel : nat) :
  forall st st',
    currentDate st = InvalidDate ->
    (taskIndex st < List.length tasks)%nat ->
    loop tz inputData fuel st <> Some (Returned st').
Proof.
  induction fuel as [|fuel IH]; intros st st' Hinv Hidx; [discriminate|].
  destruct (nth_error tasks (taskIndex st)) as [task|] eqn:Hnth.
  2:{ apply nth_error_None in Hnth. lia. }
  destruct (body tz inputData st task) as [e|st1] eqn:Hbody.
  { rewrite (loop_throw tz inputData fuel st task e Hnth Hbody).
    discriminate. }
  rewrite (loop_unfold tz inputData fuel st st1 task Hnth Hbody).
  assert (Hw : excludeWeekends && isWeekend tz (currentDate st) = false).
  { rewrite Hinv. apply andb_false_r. }
  apply IH; body_cases st st1 Hbody; try congruence; auto.
  rewrite Hinv. reflexivity.
Qed.

End Divergence.

(** ** Properties of the schedule *)

Lemma StronglySorted_lt_NoDup (l : list Z) :
  StronglySorted Z.lt l -> NoDup l.
Proof.
  induction 1 as [|x l Hs IH Hx]; constructor; auto.
  intros Hin. apply (proj1 (Forall_forall _ _) Hx) in Hin. lia.
Qed.

Lemma contiguous_adjacent (pre : list ScheduledTask) :
  forall h a b post seg,
    contiguous h (pre ++ a :: b :: post) seg -> startTime b = endTime a.
Proof.
  induction pre as [|p pre IH]; intros h a b post seg H; simpl in H.
  - inversion H as [|? ? ? ? ? _ _ Hend Hrest]; subst.
    inversion Hrest as [|? ? ? ? ? _ Hstart _ _]; subst. congruence.
  - inversion H; subst. eapply IH; eauto.
Qed.

Lemma Forall2_In_l {A B : Type} (R : A -> B -> Prop) (l : list A) (l' : list B) (x : A) :
  Forall2 R l l' -> In x l -> exists y, In y l' /\ R x y.
Proof.
  induction 1 as [|a b l l' Hab H IH]; intros Hin; simpl in *; [tauto|].
  destruct Hin as [->|Hin].
  - exists b. auto.
  - destruct (IH Hin) as (y & Hy & HR). exists y. auto.
Qed.

(** X19.  What the code guarantees.  In a UTC runtime, when an
    agent is registered, [startDate] is a date that leaves room for four
    days per task before the end of the range of dates, and no task is
    longer than [workingHoursPerDay], the scheduling computation terminates
    and returns a result, and no day of the result has [totalHours] above
    [workingHoursPerDay]. *)
Theorem schedule_terminates_within_capacity
        (inputData : Input.t) (mastra : option Mastra) (agent : Agent) :
  lookupAgent mastra = Some agent ->
  room (4 * List.length (Input.tasks inputData)) (initial inputData) ->
  Forall (fun t => estimatedHours t <= Input.workingHoursPerDay inputData)
         (Input.tasks inputData) ->
  exists fuel r,
    execute utc inputData fuel mastra = Some (Returned r) /\
    Forall (fun d => Day.totalHours d <= Input.workingHoursPerDay inputData)
           (Schedule.dailySchedule r).
Proof.
  intros Hagent Hroom Hall.
  destruct (loop_terminates_in inputData
              (List.length (Input.tasks inputData)) Hall (initial inputData))
    as (st & Hloop); auto.
  { simpl. lia. }
  { intros _. reflexivity. }
  destruct (loop_end_returns utc inputData _ st mastra agent Hagent Hloop)
    as (r & Hr).
  exists (4 * List.length (Input.tasks inputData) + 1)%nat, r.
  split; [exact Hr|].
  exact (final_capacity utc inputData _ mastra r Hr).
Qed.

Lemma schedule_terminates_within_capacity_witness :
  exists fuel r,
    execute utc input_friday fuel theMastra = Some (Returned r) /\
    Forall (fun d => Day.totalHours d <= Input.workingHoursPerDay input_friday)
           (Schedule.dailySchedule r).
Proof.
  apply (schedule_terminates_within_capacity input_friday theMastra theAgent).
  - reflexivity.
  - exists (day_ms friday). repeat split; vm_compute; discriminate.
  - repeat constructor; discriminate.
Defined.

(** X20.  With an agent registered and positive durations, one
    task longer than [workingHoursPerDay] is enough for the computation to
    return no schedule, whatever the fuel and the time zone. *)
Theorem oversized_task_diverges
        (tz : TimeZone) (inputData : Input.t) (mastra : option Mastra)
        (big : Task) :
  Forall (fun t => 0 < estimatedHours t) (Input.tasks inputData) ->
  In big (Input.tasks inputData) ->
  Input.workingHoursPerDay inputData < estimatedHours big ->
  forall fuel r, execute tz inputData fuel mastra <> Some (Returned r).
Proof.
  intros Hpos Hin Hover fuel r H.
  apply In_nth_error in Hin as [i Hi].
  apply execute_returned in H as (agent & st & days & _ & Hloop & _).
  revert Hloop.
  apply (loop_never_passes_oversized tz inputData i big Hpos Hi Hover).
  - simpl. lia.
  - apply Qle_refl.
Qed.

Lemma oversized_task_diverges_witness :
  Input.workingHoursPerDay input_10 < estimatedHours (mkTask "big" 10) /\
  ~ (exists fuel r, execute utc input_10 fuel theMastra = Some (Returned r)).
Proof.
  split; [reflexivity|]. intros (fuel & r & H). revert H.
  apply (oversized_task_diverges utc input_10 theMastra (mkTask "big" 10)).
  - repeat constructor.
  - left. reflexivity.
  - reflexivity.
Defined.

(** C1 at its failing input.  A single task of 10 hours with 8 working
    hours a day and an agent registered: the duration and the capacity are
    positive, yet the scheduling computation neither returns a result nor
    throws, whatever the fuel and the time zone; the task is never placed
    on a day of its own. *)
Theorem oversized_task_never_scheduled :
  0 < Input.workingHoursPerDay input_10 /\
  Forall (fun t => 0 < estimatedHours t) (Input.tasks input_10) /\
  ~ (exists tz fuel out, execute tz input_10 fuel theMastra = Some out).
Proof.
  split; [reflexivity|]. split; [repeat constructor|].
  intros (tz & fuel & out & H). unfold execute in H. simpl lookupAgent in H.
  rewrite (loop_stuck tz input_10 fuel (initial input_10) (mkTask "big" 10))
    in H; try reflexivity.
  discriminate.
Qed.




(** C3.  Every day of a result has [totalHours <= workingHoursPerDay].  The
    bound holds for every day without exception, so it holds in particular
    for every day other than one made of a single task longer than
    [workingHoursPerDay]. *)
Theorem capacity_invariant
        (tz : TimeZone) (inputData : Input.t) (fuel : nat)
        (mastra : option Mastra) (r : Schedule.t) :
  execute tz inputData fuel mastra = Some (Returned r) ->
  forall d, In d (Schedule.dailySchedule r) ->
    Day.totalHours d <= Input.workingHoursPerDay inputData.
Proof.
  intros H. apply Forall_forall.
  exact (final_capacity tz inputData fuel mastra r H).
Qed.

Lemma capacity_invariant_witness :
  exists r,
    execute utc input_426 13 theMastra = Some (Returned r) /\
    forall d, In d (Schedule.dailySchedule r) ->
      Day.totalHours d <= Input.workingHoursPerDay input_426.
Proof.
  exists result_426. split; [vm_compute; reflexivity|].
  apply (capacity_invariant utc input_426 13 theMastra).
  vm_compute. reflexivity.
Defined.

(** C4.  When the scheduler returns, the task ids over all the days of the
    result are the input task ids as a multiset: every id occurs as often as
    in the input, hence exactly once when the input ids are distinct. *)
Theorem completeness
        (tz : TimeZone) (inputData : Input.t) (fuel : nat)
        (mastra : option Mastra) (r : Schedule.t) :
  execute tz inputData fuel mastra = Some (Returned r) ->
  let out := days_ids (Schedule.dailySchedule r) in
  let inp := map id (Input.tasks inputData) in
  Permutation out inp /\
  (forall i, count_occ string_dec out i = count_occ string_dec inp i) /\
  (NoDup inp -> forall i, In i inp -> count_occ string_dec out i = 1%nat).
Proof.
  intros H out inp.
  assert (E : out = inp) by exact (final_ids tz inputData fuel mastra r H).
  rewrite E. repeat split.
  - apply Permutation_refl.
  - intros Hnd i Hi. apply NoDup_count_occ'; assumption.
Qed.

Lemma completeness_witness :
  exists r,
    execute utc input_426 13 theMastra = Some (Returned r) /\
    Permutation (days_ids (Schedule.dailySchedule r))
                (map id (Input.tasks input_426)).
Proof.
  exists result_426. split; [vm_compute; reflexivity|].
  apply (completeness utc input_426 13 theMastra). vm_compute. reflexivity.
Defined.

(** X21.  What the code returns.  For the empty task list the
    scheduler returns no days and a summary with [totalTasks = 0],
    [totalHours = 0], [totalDays = 0]; [averageHoursPerDay] is the unguarded
    quotient [0 / 0], that is [NaN]. *)
Theorem empty_schedule
        (tz : TimeZone) (inputData : Input.t) (fuel : nat)
        (mastra : option Mastra) (agent : Agent) :
  Input.tasks inputData = [] ->
  lookupAgent mastra = Some agent ->
  exists r,
    execute tz inputData (S fuel) mastra = Some (Returned r) /\
    Schedule.dailySchedule r = [] /\
    Summary.totalTasks (Schedule.summary r) = 0%nat /\
    Summary.totalHours (Schedule.summary r) = 0 /\
    Summary.totalDays (Schedule.summary r) = 0%nat /\
    Summary.averageHoursPerDay (Schedule.summary r) = NaN.
Proof.
  intros Hnil Hagent. unfold execute. rewrite Hagent.
  rewrite loop_exit by (rewrite Hnil; simpl; lia).
  eexists. split; [reflexivity|].
  rewrite Hnil. simpl. repeat split.
Qed.

Lemma empty_schedule_witness :
  exists r,
    execute utc input_empty 1 theMastra = Some (Returned r) /\
    Schedule.dailySchedule r = [] /\
    Summary.totalTasks (Schedule.summary r) = 0%nat /\
    Summary.totalHours (Schedule.summary r) = 0 /\
    Summary.totalDays (Schedule.summary r) = 0%nat /\
    Summary.averageHoursPerDay (Schedule.summary r) = NaN.
Proof.
  apply (empty_schedule utc input_empty 0 theMastra theAgent); reflexivity.
Defined.

(** C5 at its failing input.  For the empty task list the step returns, and
    the [averageHoursPerDay] of what it returns is no finite number, so it
    is not 0: the quotient [0 / 0] is taken. *)
Theorem empty_list_average_not_zero :
  (exists r, execute utc input_empty 1 theMastra = Some (Returned r)) /\
  ~ (exists tz fuel r q,
       execute tz input_empty fuel theMastra = Some (Returned r) /\
       Summary.averageHoursPerDay (Schedule.summary r) = Finite q).
Proof.
  split; [exists result_empty; vm_compute; reflexivity|].
  intros (tz & fuel & r & q & Hex & Havg).
  destruct fuel as [|fuel]; [discriminate|].
  vm_compute in Hex. inversion Hex; subst r. discriminate.
Qed.

(** X22.  What the code guarantees.  In a runtime whose local
    calendar day is the UTC calendar day at every moment, as in a UTC
    runtime, with [excludeWeekends] set no day of a result falls on a
    Sunday ([weekday] 0) or a Saturday ([weekday] 6). *)
Theorem weekend_exclusion
        (tz : TimeZone) (inputData : Input.t) (fuel : nat)
        (mastra : option Mastra) (r : Schedule.t) :
  local_day_is_utc_day tz ->
  Input.excludeWeekends inputData = true ->
  execute tz inputData fuel mastra = Some (Returned r) ->
  forall d, In d (Schedule.dailySchedule r) ->
    weekday (Day.date d) <> 0%Z /\ weekday (Day.date d) <> 6%Z.
Proof.
  intros Htz Hex H d Hin.
  pose proof (final_weekend tz inputData fuel mastra r Htz Hex H) as Hall.
  apply (proj1 (Forall_forall _ _) Hall) in Hin.
  unfold weekendDate in Hin. apply orb_false_iff in Hin as [H0 H6].
  split; now apply Z.eqb_neq.
Qed.

Lemma weekend_exclusion_witness :
  exists r,
    execute utc input_friday 21 theMastra = Some (Returned r) /\
    map Day.date (Schedule.dailySchedule r) = [friday; (friday + 3)%Z] /\
    forall d, In d (Schedule.dailySchedule r) ->
      weekday (Day.date d) <> 0%Z /\ weekday (Day.date d) <> 6%Z.
Proof.
  exists result_friday. split; [vm_compute; reflexivity|].
  split; [reflexivity|].
  apply (weekend_exclusion utc input_friday 21 theMastra).
  - exact utc_local_day.
  - reflexivity.
  - vm_compute. reflexivity.
Defined.

(** C6 at its failing input.  In New York, with [excludeWeekends] set, five
    tasks of 2 hours, 8 working hours a day and [startDate] "2024-01-19":
    the step returns the days 2024-01-19 and 2024-01-20, and 2024-01-20 is
    a Saturday.  The weekend test reads the local day, which is behind the
    UTC day that is emitted. *)
Theorem weekend_day_emitted_in_new_york :
  Input.excludeWeekends input_friday = true /\
  exists r,
    execute newYork input_friday 21 theMastra = Some (Returned r) /\
    map Day.date (Schedule.dailySchedule r) = [friday; (friday + 1)%Z] /\
    exists d, In d (Schedule.dailySchedule r) /\ weekday (Day.date d) = 6%Z.
Proof.
  split; [reflexivity|].
  exists result_friday_newYork. split; [vm_compute; reflexivity|].
  split; [reflexivity|].
  eexists. split; [right; left; reflexivity|]. reflexivity.
Qed.

(** C7.  The task ids read off the result, day after day and within each
    day from first to last, are the input task ids in the input order. *)
Theorem order_preservation
        (tz : TimeZone) (inputData : Input.t) (fuel : nat)
        (mastra : option Mastra) (r : Schedule.t) :
  execute tz inputData fuel mastra = Some (Returned r) ->
  days_ids (Schedule.dailySchedule r) = map id (Input.tasks inputData).
Proof. exact (final_ids tz inputData fuel mastra r). Qed.

Lemma order_preservation_witness :
  exists r,
    execute utc input_friday 21 theMastra = Some (Returned r) /\
    days_ids (Schedule.dailySchedule r) = map id (Input.tasks input_friday).
Proof.
  exists result_friday. split; [vm_compute; reflexivity|].
  apply (order_preservation utc input_friday 21 theMastra).
  vm_compute. reflexivity.
Defined.

(** X23.  What the code guarantees.  In every result no day has
    an empty task list; and in a runtime in which moving a date by one
    local day moves its UTC day by one, as in a UTC runtime, the dates of
    the days are strictly increasing, hence without duplicates. *)
Theorem days_nonempty_and_increasing
        (tz : TimeZone) (inputData : Input.t) (fuel : nat)
        (mastra : option Mastra) (r : Schedule.t) :
  execute tz inputData fuel mastra = Some (Returned r) ->
  (forall d, In d (Schedule.dailySchedule r) -> Day.tasks d <> []) /\
  (next_day_is_next_utc_day tz ->
   StronglySorted Z.lt (map Day.date (Schedule.dailySchedule r)) /\
   NoDup (map Day.date (Schedule.dailySchedule r))).
Proof.
  intros H. split.
  - apply Forall_forall. exact (final_nonempty tz inputData fuel mastra r H).
  - intros Htz.
    pose proof (final_dates tz inputData fuel mastra r Htz H) as Hs.
    split; [exact Hs|]. now apply StronglySorted_lt_NoDup.
Qed.

Lemma days_nonempty_and_increasing_witness :
  exists r,
    execute utc input_friday 21 theMastra = Some (Returned r) /\
    (forall d, In d (Schedule.dailySchedule r) -> Day.tasks d <> []) /\
    StronglySorted Z.lt (map Day.date (Schedule.dailySchedule r)).
Proof.
  exists result_friday. split; [vm_compute; reflexivity|].
  destruct (days_nonempty_and_increasing utc input_friday 21 theMastra
              result_friday) as [Hne Hinc].
  - vm_compute. reflexivity.
  - split; [exact Hne|]. apply Hinc. exact utc_next_day.
Defined.

(** C8 at its failing input.  In New York, with weekends included, three
    tasks of 8 hours, 8 working hours a day and [startDate] "2024-03-10",
    the day on which daylight saving time begins: the step returns the
    days 2024-03-10, 2024-03-10 and 2024-03-11, so a date occurs twice and
    the dates are not strictly increasing.  No day is empty. *)
Theorem duplicate_date_in_new_york :
  exists r,
    execute newYork input_march 13 theMastra = Some (Returned r) /\
    map Day.date (Schedule.dailySchedule r)
    = [march10; march10; (march10 + 1)%Z] /\
    ~ NoDup (map Day.date (Schedule.dailySchedule r)) /\
    ~ StronglySorted Z.lt (map Day.date (Schedule.dailySchedule r)).
Proof.
  exists result_march_newYork. split; [vm_compute; reflexivity|].
  split; [reflexivity|]. split.
  - intros Hnd. inversion Hnd as [|x l Hnotin _]; subst.
    apply Hnotin. left. reflexivity.
  - intros Hs. apply StronglySorted_lt_NoDup in Hs.
    inversion Hs as [|x l Hnotin _]; subst.
    apply Hnotin. left. reflexivity.
Qed.

(** Companion to C9: what the code returns.  In every result
    [summary.totalHours] is the sum of the days' [totalHours] and the sum of
    the input durations, [summary.totalDays] is the number of days,
    [summary.totalTasks] is the number of input tasks, and
    [summary.averageHoursPerDay] is [totalHours] divided by [totalDays] when
    there is a day; without days it is the unguarded quotient [0 / 0], that
    is [NaN]. *)
Theorem summary_consistency
        (tz : TimeZone) (inputData : Input.t) (fuel : nat)
        (mastra : option Mastra) (r : Schedule.t) :
  execute tz inputData fuel mastra = Some (Returned r) ->
  let s := Schedule.summary r in
  let days := Schedule.dailySchedule r in
  Summary.totalHours s == days_hours days /\
  Summary.totalHours s == tasks_hours (Input.tasks inputData) /\
  Summary.totalDays s = List.length days /\
  Summary.totalTasks s = List.length (Input.tasks inputData) /\
  (days <> [] ->
   Summary.averageHoursPerDay s
   = Finite (Summary.totalHours s / inject_Z (Z.of_nat (Summary.totalDays s)))) /\
  (days = [] -> Summary.averageHoursPerDay s = NaN).
Proof.
  intros H s days.
  destruct (final_hours tz inputData fuel mastra r H) as [Hsum Htot].
  fold s in Hsum, Htot. fold days in Hsum.
  apply execute_returned in H as (agent & st & ds & _ & _ & _ & Hr).
  assert (Hdays : Summary.totalDays s = List.length days).
  { unfold s, days. rewrite Hr. reflexivity. }
  assert (Havg : Summary.averageHoursPerDay s
                 = js_div (Summary.totalHours s)
                          (inject_Z (Z.of_nat (Summary.totalDays s)))).
  { unfold s. rewrite Hr. reflexivity. }
  repeat split; auto.
  - unfold s. rewrite Hr. reflexivity.
  - intros Hne. rewrite Havg. unfold js_div.
    destruct (Qeq_bool _ 0) eqn:Hz; [|reflexivity].
    exfalso. apply Qeq_bool_eq in Hz. rewrite Hdays in Hz.
    destruct days as [|d ds']; [congruence|].
    unfold Qeq in Hz. simpl in Hz. lia.
  - intros Hnil. rewrite Havg, Hdays, Hnil. unfold js_div. simpl.
    assert (Hz : Summary.totalHours s == 0).
    { rewrite Hsum, Hnil. reflexivity. }
    apply Qeq_eq_bool in Hz. now rewrite Hz.
Qed.

Lemma summary_consistency_witness :
  exists r,
    execute utc input_426 13 theMastra = Some (Returned r) /\
    Summary.totalHours (Schedule.summary r) == 12 /\
    Summary.totalDays (Schedule.summary r) = 2%nat /\
    Summary.averageHoursPerDay (Schedule.summary r) = Finite (12 / 2).
Proof.
  exists result_426. split; [vm_compute; reflexivity|].
  destruct (summary_consistency utc input_426 13 theMastra result_426)
    as (_ & Htot & Hdays & _ & Havg & _).
  - vm_compute. reflexivity.
  - split; [exact Htot|]. split; [exact Hdays|].
    apply Havg. discriminate.
Defined.

(** C9 at its failing input.  The result for the empty task list has no
    days, and its [averageHoursPerDay] is no finite number, so it is not the
    0 that the summary is to hold when there are no days. *)
Theorem average_without_days_not_zero :
  exists r,
    execute utc input_empty 1 theMastra = Some (Returned r) /\
    Schedule.dailySchedule r = [] /\
    forall q, Summary.averageHoursPerDay (Schedule.summary r) <> Finite q.
Proof.
  exists result_empty. split; [vm_compute; reflexivity|].
  split; [reflexivity|]. intros q. discriminate.
Qed.

(** C10.  Within every day of a result the entries are laid out one after
    the other from the 09:00 anchor: the first entry starts at
    [formatTime 0], which is "09:00"; every later entry starts where the
    one before it ends; and the days' entries are the input tasks, cut into
    consecutive runs, each entry running from its start offset to that
    offset plus the task's [estimatedHours]. *)
Theorem assignments_contiguous
        (tz : TimeZone) (inputData : Input.t) (fuel : nat)
        (mastra : option Mastra) (r : Schedule.t) :
  execute tz inputData fuel mastra = Some (Returned r) ->
  formatTime 0 = "09:00"%string /\
  (forall d a rest, In d (Schedule.dailySchedule r) ->
     Day.tasks d = a :: rest -> startTime a = formatTime 0) /\
  (forall d pre a b post, In d (Schedule.dailySchedule r) ->
     Day.tasks d = pre ++ a :: b :: post -> startTime b = endTime a) /\
  (exists segs : list (list Task),
     List.concat segs = Input.tasks inputData /\
     Forall2 (fun d seg => contiguous 0 (Day.tasks d) seg)
             (Schedule.dailySchedule r) segs).
Proof.
  intros H.
  destruct (final_layout tz inputData fuel mastra r H) as (segs & Hcat & Hall).
  split; [reflexivity|]. repeat split.
  - intros d a rest Hin Htasks.
    destruct (Forall2_In_l _ _ _ _ Hall Hin) as (seg & _ & Hc).
    rewrite Htasks in Hc. now inversion Hc.
  - intros d pre a b post Hin Htasks.
    destruct (Forall2_In_l _ _ _ _ Hall Hin) as (seg & _ & Hc).
    rewrite Htasks in Hc. eapply contiguous_adjacent; eauto.
  - exists segs. auto.
Qed.

Lemma assignments_contiguous_witness :
  exists r,
    execute utc input_426 13 theMastra = Some (Returned r) /\
    map (fun d => map (fun a => (startTime a, endTime a)) (Day.tasks d))
        (Schedule.dailySchedule r)
    = [ [("09:00", "13:00"); ("13:00", "15:00")]; [("09:00", "15:00")] ]%string /\
    forall d a rest, In d (Schedule.dailySchedule r) ->
      Day.tasks d = a :: rest -> startTime a = formatTime 0.
Proof.
  exists result_426. split; [vm_compute; reflexivity|].
  split; [reflexivity|].
  apply (assignments_contiguous utc input_426 13 theMastra).
  vm_compute. reflexivity.
Defined.

(** ** Further properties of the scheduling step *)

(** *** The number of turns of the loop, and the errors *)

(** X1.  In a UTC runtime, when an agent is registered, [startDate] is a
    date that leaves room for four days per task before the end of the
    range of dates, and no task is longer than [workingHoursPerDay], the
    loop is left after at most four turns per task: [execute] returns with
    fuel [4 * tasks.length + 1]. *)
Theorem schedule_within_four_turns_per_task
        (inputData : Input.t) (mastra : option Mastra) (agent : Agent) :
  lookupAgent mastra = Some agent ->
  room (4 * List.length (Input.tasks inputData)) (initial inputData) ->
  Forall (fun t => estimatedHours t <= Input.workingHoursPerDay inputData)
         (Input.tasks inputData) ->
  exists r,
    execute utc inputData (4 * List.length (Input.tasks inputData) + 1) mastra
    = Some (Returned r).
Proof.
  intros Hagent Hroom Hall.
  destruct (loop_terminates_in inputData
              (List.length (Input.tasks inputData)) Hall (initial inputData))
    as (st & Hloop); auto.
  { simpl. lia. }
  { intros _. reflexivity. }
  exact (loop_end_returns utc inputData _ st mastra agent Hagent Hloop).
Qed.

Lemma schedule_within_four_turns_per_task_witness :
  exists r, execute utc input_friday 21 theMastra = Some (Returned r).
Proof.
  apply (schedule_within_four_turns_per_task input_friday theMastra theAgent).
  - reflexivity.
  - exists (day_ms friday). repeat split; vm_compute; discriminate.
  - repeat constructor; discriminate.
Defined.

(** X2.  In a UTC runtime, with an agent registered, a [startDate] that
    leaves room for four days per task and positive durations, the step
    returns a schedule exactly when no task is longer than
    [workingHoursPerDay]. *)
Theorem returns_iff_all_tasks_fit
        (inputData : Input.t) (mastra : option Mastra) (agent : Agent) :
  lookupAgent mastra = Some agent ->
  room (4 * List.length (Input.tasks inputData)) (initial inputData) ->
  Forall (fun t => 0 < estimatedHours t) (Input.tasks inputData) ->
  (exists fuel r, execute utc inputData fuel mastra = Some (Returned r)) <->
  Forall (fun t => estimatedHours t <= Input.workingHoursPerDay inputData)
         (Input.tasks inputData).
Proof.
  intros Hagent Hroom Hpos. split.
  - intros (fuel & r & Hex). apply Forall_forall. intros t Hin.
    destruct (Qlt_le_dec (Input.workingHoursPerDay inputData)
                         (estimatedHours t)) as [Hover|Hle]; [|exact Hle].
    exfalso. apply In_nth_error in Hin as [i Hi].
    apply execute_returned in Hex as (a & st & days & _ & Hloop & _).
    revert Hloop.
    apply (loop_never_passes_oversized utc inputData i t Hpos Hi Hover);
      [simpl; lia|apply Qle_refl].
  - intros Hall.
    destruct (loop_terminates_in inputData
                (List.length (Input.tasks inputData)) Hall
                (initial inputData)) as (st & Hloop); auto.
    { simpl. lia. }
    { intros _. reflexivity. }
    destruct (loop_end_returns utc inputData _ st mastra agent Hagent Hloop)
      as (r & Hr).
    now exists (4 * List.length (Input.tasks inputData) + 1)%nat, r.
Qed.

Lemma returns_iff_all_tasks_fit_witness :
  (exists fuel r, execute utc input_426 fuel theMastra = Some (Returned r)) <->
  Forall (fun t => estimatedHours t <= Input.workingHoursPerDay input_426)
         (Input.tasks input_426).
Proof.
  apply (returns_iff_all_tasks_fit input_426 theMastra theAgent).
  - reflexivity.
  - exists (day_ms monday). repeat split; vm_compute; discriminate.
  - repeat constructor.
Defined.

(** X3.  Whatever the time zone, the step throws nothing but "Agent not
    found", exactly when no agent is registered, and the [RangeError] of
    [toISOString]; and with an agent registered, a [startDate] that is no
    date and a first task that fits into a day, it throws that [RangeError]
    as soon as the loop runs. *)
Theorem errors_of_the_step
        (tz : TimeZone) (inputData : Input.t) (fuel : nat)
        (mastra : option Mastra) :
  (lookupAgent mastra = None ->
   execute tz inputData fuel mastra = Some (Threw AgentNotFound)) /\
  (forall e, execute tz inputData fuel mastra = Some (Threw e) ->
     (e = AgentNotFound /\ lookupAgent mastra = None) \/
     (e = RangeError /\ lookupAgent mastra <> None)) /\
  (forall task rest,
     lookupAgent mastra <> None ->
     Input.startDate inputData = InvalidDate ->
     Input.tasks inputData = task :: rest ->
     estimatedHours task <= Input.workingHoursPerDay inputData ->
     execute tz inputData (S fuel) mastra = Some (Threw RangeError)).
Proof.
  unfold execute. repeat split.
  - intros ->. reflexivity.
  - intros e. destruct (lookupAgent mastra) as [agent|].
    + destruct (loop tz inputData fuel (initial inputData))
        as [[e'|st]|] eqn:Hloop; try discriminate.
      * intros H. inversion H; subst e'. right.
        split; [|discriminate]. now apply loop_throws in Hloop.
      * unfold finish, flushDay, pushDay, toISODate.
        destruct (0 <? List.length (currentDayTasks st))%nat;
          [destruct (currentDate st)|]; cbn [bind]; intros H;
          inversion H. right. split; [reflexivity|discriminate].
    + intros H. inversion H. left. auto.
  - intros task rest Hagent Hdate Htasks Hfit.
    destruct (lookupAgent mastra) as [agent|]; [|congruence].
    rewrite (loop_throw tz inputData fuel (initial inputData) task RangeError).
    + reflexivity.
    + simpl. now rewrite Htasks.
    + unfold body. cbn [initial currentDate currentDayHours].
      rewrite Hdate. cbn [isWeekend getDay]. rewrite andb_false_r.
      assert (H : Qle_bool (0 + estimatedHours task)
                           (Input.workingHoursPerDay inputData) = true).
      { apply Qle_bool_iff. now rewrite Qplus_0_l. }
      rewrite H. reflexivity.
Qed.

Lemma errors_of_the_step_witness :
  execute utc input_no_date 1 theMastra = Some (Threw RangeError) /\
  execute utc input_no_date 1 noAgent = Some (Threw AgentNotFound).
Proof.
  split.
  - destruct (errors_of_the_step utc input_no_date 0 theMastra)
      as (_ & _ & Hrange).
    apply (Hrange (mkTask "a" 4) []); try reflexivity; discriminate.
  - apply (errors_of_the_step utc input_no_date 1 noAgent). reflexivity.
Defined.

(** *** How large the result is *)




Lemma days_ids_length (ds : list Day.t) :
  Forall (fun d => Day.tasks d <> []) ds ->
  (List.length ds <= List.length (days_ids ds))%nat.
Proof.
  induction 1 as [|d ds Hd Hds IH]; simpl; [lia|].
  rewrite length_app, length_map.
  destruct (Day.tasks d); [congruence|]. simpl. lia.
Qed.

(** X5.  A schedule has at most as many days as there are tasks, and it has
    no day exactly when there is no task. *)
Theorem days_at_most_tasks
        (tz : TimeZone) (inputData : Input.t) (fuel : nat)
        (mastra : option Mastra)
        (r : Schedule.t) :
  execute tz inputData fuel mastra = Some (Returned r) ->
  (List.length (Schedule.dailySchedule r)
   <= List.length (Input.tasks inputData))%nat /\
  (Schedule.dailySchedule r = [] <-> Input.tasks inputData = []).
Proof.
  intros H.
  pose proof (final_ids tz inputData fuel mastra r H) as Hids.
  pose proof (final_nonempty tz inputData fuel mastra r H) as Hne.
  pose proof (days_ids_length _ Hne) as Hlen.
  rewrite Hids, length_map in Hlen. split; [exact Hlen|]. split.
  - intros Hnil. rewrite Hnil in Hids. simpl in Hids.
    destruct (Input.tasks inputData); [reflexivity|discriminate].
  - intros Hnil. rewrite Hnil in Hlen. simpl in Hlen.
    destruct (Schedule.dailySchedule r); [reflexivity|simpl in Hlen; lia].
Qed.

Lemma days_at_most_tasks_witness :
  exists r,
    execute utc input_friday 21 theMastra = Some (Returned r) /\
    (List.length (Schedule.dailySchedule r)
     <= List.length (Input.tasks input_friday))%nat.
Proof.
  exists result_friday. split; [vm_compute; reflexivity|].
  apply (days_at_most_tasks utc input_friday 21 theMastra).
  vm_compute. reflexivity.
Defined.

Lemma in_days_ids (ds : list Day.t) (d : Day.t) (a : ScheduledTask) :
  In d ds -> In a (Day.tasks d) -> In (taskId a) (days_ids ds).
Proof.
  intros Hd Ha. unfold days_ids. apply in_flat_map.
  exists d. split; [exact Hd|]. now apply in_map.
Qed.

Lemma find_by_id (ts : list Task) (i : string) :
  In i (map id ts) ->
  exists t, find (fun task => String.eqb (id task) i) ts = Some t /\
            id t = i /\ In t ts.
Proof.
  induction ts as [|t ts IH]; simpl; [tauto|].
  intros Hin. destruct (String.eqb (id t) i) eqn:E.
  - exists t. apply String.eqb_eq in E. auto.
  - destruct Hin as [Heq|Hin].
    + apply String.eqb_neq in E. contradiction.
    + destruct (IH Hin) as (t' & Hf & Hid & Hin'). exists t'. auto.
Qed.

(** X6.  The lookup [tasks.find((task) => task.id === t.taskId)] succeeds
    for every entry of a returned schedule, with a task of the entry's
    id. *)
Theorem scheduled_task_is_found
        (tz : TimeZone) (inputData : Input.t) (fuel : nat)
        (mastra : option Mastra)
        (r : Schedule.t) :
  execute tz inputData fuel mastra = Some (Returned r) ->
  forall d a,
    In d (Schedule.dailySchedule r) -> In a (Day.tasks d) ->
    exists t, taskInfo (Input.tasks inputData) a = Some t /\
              id t = taskId a /\ In t (Input.tasks inputData).
Proof.
  intros H d a Hd Ha.
  pose proof (in_days_ids _ d a Hd Ha) as Hin.
  rewrite (final_ids tz inputData fuel mastra r H) in Hin.
  exact (find_by_id _ _ Hin).
Qed.

Lemma scheduled_task_is_found_witness :
  exists r,
    execute utc input_426 13 theMastra = Some (Returned r) /\
    forall d a,
      In d (Schedule.dailySchedule r) -> In a (Day.tasks d) ->
      exists t, taskInfo (Input.tasks input_426) a = Some t /\
                id t = taskId a /\ In t (Input.tasks input_426).
Proof.
  exists result_426. split; [vm_compute; reflexivity|].
  apply (scheduled_task_is_found utc input_426 13 theMastra).
  vm_compute. reflexivity.
Defined.

(** *** The calendar of a schedule *)

Lemma skipWeekend_blocked (ex : bool) (d : Z) :
  ex && weekendDate d = true -> skipWeekend ex (d + 1) = skipWeekend ex d.
Proof.
  intros Hb. unfold skipWeekend. rewrite Hb.
  apply andb_true_iff in Hb as [-> Hd]. simpl.
  destruct (weekendDate (d + 1)) eqn:Hd1.
  - rewrite (weekend_at_most_two d Hd Hd1). lia.
  - reflexivity.
Qed.

Lemma skipWeekend_unblocked (ex : bool) (d : Z) :
  ex && weekendDate d = false -> skipWeekend ex d = d.
Proof. intros Hb. unfold skipWeekend. now rewrite Hb. Qed.

(** [skipWeekend] yields the first day from [d] on that is let through. *)
Lemma skipWeekend_first_working_day (ex : bool) (d : Z) :
  ex && weekendDate (skipWeekend ex d) = false /\
  (d <= skipWeekend ex d <= d + 2)%Z /\
  (forall d', (d <= d' < skipWeekend ex d)%Z -> ex && weekendDate d' = true).
Proof.
  unfold skipWeekend.
  destruct (ex && weekendDate d) eqn:Hb.
  - pose proof Hb as Hb'. apply andb_true_iff in Hb' as [-> Hd]. simpl.
    destruct (weekendDate (d + 1)) eqn:Hd1.
    + pose proof (weekend_at_most_two d Hd Hd1) as Hd2.
      replace (d + 1 + 1)%Z with (d + 2)%Z in Hd2 by lia.
      repeat split; try lia; auto.
      intros d' Hd'.
      assert (E : d' = d \/ d' = (d + 1)%Z) by lia.
      destruct E; subst d'; simpl; auto.
    + repeat split; try lia; auto.
      intros d' Hd'. assert (E : d' = d) by lia. subst d'. simpl. auto.
  - repeat split; try lia; auto.
Qed.

Lemma nthWorkingDay_every_day (d : Z) (k : nat) :
  nthWorkingDay false d k = (d + Z.of_nat k)%Z.
Proof.
  unfold nthWorkingDay, skipWeekend. simpl.
  induction k as [|k IH].
  - simpl. lia.
  - cbn [dayStart]. unfold skipWeekend. simpl andb. cbv iota.
    rewrite IH. lia.
Qed.

Section Calendar.

Variable tz : TimeZone.
Variable inputData : Input.t.
Variable start : Z.

Hypothesis local_day : local_day_is_utc_day tz.
Hypothesis next_day : next_day_is_next_utc_day tz.

Abbreviation tasks := (Input.tasks inputData).
Abbreviation workingHoursPerDay := (Input.workingHoursPerDay inputData).
Abbreviation excludeWeekends := (Input.excludeWeekends inputData).

Lemma isWeekend_local_day (t : Z) :
  isWeekend tz (Time t) = weekendDate (t / msPerDay).
Proof.
  unfold isWeekend, getDay, weekendDate, weekday. now rewrite local_day.
Qed.

(** On a run that ends, the date moved by a turn is valid and one UTC day
    later. *)
Lemma moved_date (st' : State) (t : Z) :
  (taskIndex st' < List.length tasks)%nat ->
  currentDate st' = addDays tz (Time t) 1 ->
  (exists fuel st'', loop tz inputData fuel st' = Some (Returned st'')) ->
  utcDay (currentDate st') = Some (t / msPerDay + 1)%Z.
Proof.
  intros Hidx Hdate (fuel & st'' & Hloop).
  destruct (currentDate st') as [|t'] eqn:Hd'.
  - exfalso. revert Hloop.
    now apply (loop_invalid_never_returns tz inputData).
  - simpl. f_equal. apply next_day. congruence.
Qed.

Lemma calendar_preserved (st st' : State) (task : Task) :
  nth_error tasks (taskIndex st) = Some task ->
  body tz inputData st task = Returned st' ->
  inv_calendar tz inputData start st ->
  (exists fuel st'', loop tz inputData fuel st' = Some (Returned st'')) ->
  inv_calendar tz inputData start st'.
Proof.
  unfold inv_calendar. cbv zeta. intros Hnth Hbody.
  assert (Hidx : (taskIndex st < List.length tasks)%nat).
  { apply nth_error_Some. congruence. }
  intros (Hdates & (today & Htoday & Hskip) & Hblocked & Hzero) Hret.
  destruct (currentDate st) as [|t] eqn:Hnow; [discriminate|].
  cbn [utcDay] in Htoday. inversion Htoday; subst today. clear Htoday.
  rewrite isWeekend_local_day in Hblocked.
  assert (Hmoved : forall s,
             (exists fuel st'', loop tz inputData fuel s = Some (Returned st'')) ->
             taskIndex s = taskIndex st ->
             currentDate s = addDays tz (Time t) 1 ->
             utcDay (currentDate s) = Some (t / msPerDay + 1)%Z).
  { intros s Hs Hi Hd. apply moved_date; auto. now rewrite Hi. }
  body_cases st st' Hbody; rewrite ?isWeekend_local_day in *;
    try (inversion Hnow; subst tnow).
  - split; [exact Hdates|]. split; [|split; [intros Hne; now contradiction Hne|exact Hzero]].
    exists (t / msPerDay + 1)%Z. split.
    + apply (Hmoved _ Hret); reflexivity.
    + now rewrite skipWeekend_blocked.
  - rewrite Hblocked in Hwk by discriminate. discriminate.
  - split; [exact Hdates|]. split; [|split].
    + exists (t / msPerDay)%Z. split; [reflexivity|exact Hskip].
    + intros _. exact Hwk.
    + intros Hnil. now apply app_eq_nil in Hnil as [_ ?].
  - exfalso. destruct Hret as (fuel & st' & Hloop).
    rewrite (loop_stuck tz inputData fuel _ task) in Hloop;
      [discriminate|exact Hnth| |reflexivity|reflexivity].
    apply Qnot_le_lt. intros Hle.
    assert (Hfit' : Qle_bool (currentDayHours st + estimatedHours task)
                             workingHoursPerDay = true).
    { apply Qle_bool_iff. rewrite (Hzero eq_refl), Qplus_0_l. exact Hle. }
    congruence.
  - pose proof (skipWeekend_unblocked _ _ Hwk) as Hd.
    rewrite length_app. cbn [List.length].
    rewrite Nat.add_1_r, seq_S, !map_app. cbn [map Day.date Nat.add].
    rewrite <- Hdates, <- Hskip, Hd.
    split; [reflexivity|]. split; [|split].
    + exists (t / msPerDay + 1)%Z. split.
      * apply (Hmoved _ Hret); reflexivity.
      * unfold nthWorkingDay at 1. cbn [dayStart].
        fold (nthWorkingDay excludeWeekends start
                            (List.length (schedule st))).
        now rewrite <- Hskip, Hd.
    + intros Hne. now contradiction Hne.
    + intros _. reflexivity.
Qed.

Lemma final_calendar (fuel : nat) (mastra : option Mastra) (r : Schedule.t) :
  utcDay (Input.startDate inputData) = Some start ->
  execute tz inputData fuel mastra = Some (Returned r) ->
  map Day.date (Schedule.dailySchedule r)
  = map (nthWorkingDay excludeWeekends start)
        (seq 0 (List.length (Schedule.dailySchedule r))).
Proof.
  intros Hstart H.
  apply execute_returned in H as (agent & st & days & _ & Hloop & Hflush & ->).
  apply (loop_invariant_returning tz inputData
           (inv_calendar tz inputData start)) in Hloop
    as [(Hdates & (today & Htoday & Hskip) & Hblocked & _) _].
  - cbn [Schedule.dailySchedule].
    destruct (flushDay_returned _ _ Hflush)
      as [[Hnil ->]|(t & Hdate & Hne & ->)]; [exact Hdates|].
    rewrite length_app. cbn [List.length].
    rewrite Nat.add_1_r, seq_S, !map_app. cbn [map Day.date Nat.add].
    rewrite <- Hdates, <- Hskip.
    rewrite Hdate in Htoday. simpl in Htoday. inversion Htoday; subst today.
    rewrite skipWeekend_unblocked; [reflexivity|].
    rewrite <- isWeekend_local_day, <- Hdate. now apply Hblocked.
  - intros st0 st1 task Hnth Hbody.
    now apply (calendar_preserved st0 st1 task).
  - unfold inv_calendar. simpl. repeat split; auto; try reflexivity.
    + exists start. auto.
    + intros Hne. now contradiction Hne.
Qed.

End Calendar.

Lemma nth_day_date (tz : TimeZone) (inputData : Input.t) (start : Z)
      (fuel : nat) (mastra : option Mastra)
      (r : Schedule.t) (j : nat) (d : Day.t) :
  local_day_is_utc_day tz ->
  next_day_is_next_utc_day tz ->
  utcDay (Input.startDate inputData) = Some start ->
  execute tz inputData fuel mastra = Some (Returned r) ->
  nth_error (Schedule.dailySchedule r) j = Some d ->
  Day.date d = nthWorkingDay (Input.excludeWeekends inputData) start j.
Proof.
  intros Hl Hn Hstart H Hj.
  pose proof (final_calendar tz inputData start Hl Hn fuel mastra r Hstart H)
    as Hcal.
  assert (Hlt : (j < List.length (Schedule.dailySchedule r))%nat).
  { apply nth_error_Some. congruence. }
  apply (map_nth_error Day.date) in Hj. rewrite Hcal in Hj.
  rewrite nth_error_map, nth_error_seq in Hj.
  apply Nat.ltb_lt in Hlt. rewrite Hlt in Hj. simpl in Hj. congruence.
Qed.

(** X7.  In a runtime whose local day is the UTC day and in which a local
    day later is a UTC day later, as in a UTC runtime, the days of a
    schedule are consecutive working days from the day of [startDate] on,
    none left idle: the [j]-th day is dated [nthWorkingDay excludeWeekends
    start j]; when weekends are not excluded this is [start + j]. *)
Theorem days_are_consecutive_working_days
        (tz : TimeZone) (inputData : Input.t) (start : Z) (fuel : nat)
        (mastra : option Mastra) (r : Schedule.t) :
  local_day_is_utc_day tz ->
  next_day_is_next_utc_day tz ->
  utcDay (Input.startDate inputData) = Some start ->
  execute tz inputData fuel mastra = Some (Returned r) ->
  forall j d,
    nth_error (Schedule.dailySchedule r) j = Some d ->
    Day.date d = nthWorkingDay (Input.excludeWeekends inputData) start j /\
    (Input.excludeWeekends inputData = false ->
     Day.date d = (start + Z.of_nat j)%Z).
Proof.
  intros Hl Hn Hstart H j d Hj.
  pose proof (nth_day_date tz inputData start fuel mastra r j d
                Hl Hn Hstart H Hj) as Hdate.
  split; [exact Hdate|].
  intros Hex. rewrite Hdate, Hex. apply nthWorkingDay_every_day.
Qed.

Lemma days_are_consecutive_working_days_witness :
  exists r,
    execute utc input_friday 21 theMastra = Some (Returned r) /\
    map (nthWorkingDay true friday) [0; 1]%nat = [friday; (friday + 3)%Z] /\
    forall j d,
      nth_error (Schedule.dailySchedule r) j = Some d ->
      Day.date d = nthWorkingDay true friday j.
Proof.
  exists result_friday. split; [vm_compute; reflexivity|].
  split; [reflexivity|].
  intros j d Hj.
  apply (days_are_consecutive_working_days utc input_friday friday 21
           theMastra result_friday utc_local_day utc_next_day);
    [reflexivity|vm_compute; reflexivity|exact Hj].
Defined.

(** X8.  In such a runtime the first day of a schedule is the day of
    [startDate] or one of the two days after it, and every further day is
    one to three days after the day before it. *)
Theorem days_at_most_three_apart
        (tz : TimeZone) (inputData : Input.t) (start : Z) (fuel : nat)
        (mastra : option Mastra) (r : Schedule.t) :
  local_day_is_utc_day tz ->
  next_day_is_next_utc_day tz ->
  utcDay (Input.startDate inputData) = Some start ->
  execute tz inputData fuel mastra = Some (Returned r) ->
  (forall d, nth_error (Schedule.dailySchedule r) 0 = Some d ->
     (start <= Day.date d <= start + 2)%Z) /\
  (forall j d d',
     nth_error (Schedule.dailySchedule r) j = Some d ->
     nth_error (Schedule.dailySchedule r) (S j) = Some d' ->
     (Day.date d + 1 <= Day.date d' <= Day.date d + 3)%Z).
Proof.
  intros Hl Hn Hstart H. split.
  - intros d Hd.
    rewrite (nth_day_date _ _ _ _ _ _ _ _ Hl Hn Hstart H Hd).
    unfold nthWorkingDay. cbn [dayStart].
    destruct (skipWeekend_first_working_day
                (Input.excludeWeekends inputData) start)
      as (_ & Hb & _). exact Hb.
  - intros j d d' Hd Hd'.
    rewrite (nth_day_date _ _ _ _ _ _ _ _ Hl Hn Hstart H Hd),
            (nth_day_date _ _ _ _ _ _ _ _ Hl Hn Hstart H Hd').
    unfold nthWorkingDay. cbn [dayStart].
    generalize (skipWeekend (Input.excludeWeekends inputData)
                            (dayStart (Input.excludeWeekends inputData)
                                      start j)) as w.
    intros w.
    destruct (skipWeekend_first_working_day
                (Input.excludeWeekends inputData) (w + 1)) as (_ & Hb & _).
    lia.
Qed.

Lemma days_at_most_three_apart_witness :
  exists r,
    execute utc input_friday 21 theMastra = Some (Returned r) /\
    forall j d d',
      nth_error (Schedule.dailySchedule r) j = Some d ->
      nth_error (Schedule.dailySchedule r) (S j) = Some d' ->
      (Day.date d + 1 <= Day.date d' <= Day.date d + 3)%Z.
Proof.
  exists result_friday. split; [vm_compute; reflexivity|].
  apply (days_at_most_three_apart utc input_friday friday 21 theMastra
           result_friday utc_local_day utc_next_day);
    [reflexivity|vm_compute; reflexivity].
Defined.

(** *** The packing of the days *)

Lemma entries_snoc (seg : list Task) :
  forall h t,
    entries h (seg ++ [t])
    = entries h seg
      ++ [ {| taskId := id t;
              startTime := formatTime (offset_after h seg);
              endTime := formatTime (offset_after h seg + estimatedHours t);
              notes := mkNotes t |} ].
Proof.
  induction seg as [|x seg IH]; intros h t; simpl; [reflexivity|].
  now rewrite IH.
Qed.

Lemma entries_nil_inv (h : Q) (seg : list Task) :
  entries h seg = [] -> seg = [].
Proof. destruct seg; [reflexivity|discriminate]. Qed.

Lemma offset_after_sum (seg : list Task) :
  forall h, offset_after h seg == h + tasks_hours seg.
Proof.
  unfold offset_after.
  induction seg as [|t seg IH]; intros h; simpl.
  - ring.
  - rewrite IH. ring.
Qed.

Lemma firstn_split_nth {A : Type} (l a b : list A) (x : A) (n : nat) :
  a ++ x :: b = firstn n l -> nth_error l (List.length a) = Some x.
Proof.
  intros H.
  rewrite <- (firstn_skipn n l), <- H, <- app_assoc.
  rewrite nth_error_app2 by lia. now rewrite Nat.sub_diag.
Qed.

Lemma greedy_cut_snoc (capacity : Q) (ts : list Task)
      (segs : list (list Task)) (cur : list Task) (n : nat) :
  greedy_cut capacity segs ->
  (forall pre s t,
      segs = pre ++ [s] ->
      nth_error ts (List.length (List.concat segs)) = Some t ->
      capacity < offset_after 0 s + estimatedHours t) ->
  List.concat segs ++ cur = firstn n ts ->
  greedy_cut capacity (segs ++ [cur]).
Proof.
  intros Hcut Hlast Hcat pre s t s' post Heq.
  destruct post as [|p post0].
  - change (pre ++ s :: [t :: s']) with (pre ++ [s] ++ [t :: s']) in Heq.
    rewrite app_assoc in Heq. apply app_inj_tail in Heq as [Hsegs Hcur].
    apply (Hlast pre s t Hsegs). subst cur.
    exact (firstn_split_nth _ _ _ _ _ Hcat).
  - destruct (@exists_last _ (p :: post0)) as (post' & x & Hpost);
      [discriminate|].
    rewrite Hpost in Heq.
    change (pre ++ s :: (t :: s') :: post' ++ [x])
      with (pre ++ (s :: (t :: s') :: post') ++ [x]) in Heq.
    rewrite app_assoc in Heq. apply app_inj_tail in Heq as [Hsegs _].
    exact (Hcut pre s t s' post' Hsegs).
Qed.

Section Packing.

Variable tz : TimeZone.
Variable inputData : Input.t.

Abbreviation tasks := (Input.tasks inputData).
Abbreviation workingHoursPerDay := (Input.workingHoursPerDay inputData).
Abbreviation excludeWeekends := (Input.excludeWeekends inputData).

Lemma packing_preserved (st st' : State) (task : Task) :
  nth_error tasks (taskIndex st) = Some task ->
  body tz inputData st task = Returned st' ->
  inv_packing tz inputData st -> inv_packing tz inputData st'.
Proof.
  unfold inv_packing. cbv zeta. intros Hnth Hbody.
  assert (Hidx : (taskIndex st < List.length tasks)%nat).
  { apply nth_error_Some. congruence. }
  body_cases st st' Hbody;
    intros (segs & cur & Hdays & Hentries & Hoff & Hcat & Hne & Hcut & Hlast
            & Hblocked).
  - exists segs, cur. repeat split; auto. congruence.
  - assert (true = false) by (apply Hblocked; discriminate). discriminate.
  - exists segs, (cur ++ [task]). repeat split; auto.
    + now rewrite entries_snoc, Hentries, Hoff.
    + unfold offset_after in *. rewrite fold_left_app. simpl. now rewrite Hoff.
    + rewrite (firstn_succ_nth _ _ _ Hnth), app_assoc, Hcat. reflexivity.
  - symmetry in Hentries. apply entries_nil_inv in Hentries. subst cur.
    exists segs, []. repeat split; auto. congruence.
  - assert (Hcur_ne : cur <> []).
    { intros ->. discriminate. }
    exists (segs ++ [cur]), []. repeat split; auto; try congruence.
    + apply Forall2_app; auto.
    + rewrite concat_app. simpl. now rewrite !app_nil_r.
    + apply Forall_app. split; auto.
    + exact (greedy_cut_snoc _ _ _ _ _ Hcut Hlast Hcat).
    + intros pre s t Heq Ht.
      apply app_inj_tail in Heq as [_ <-].
      rewrite concat_app in Ht. simpl in Ht. rewrite app_nil_r, Hcat in Ht.
      rewrite length_firstn, Nat.min_l in Ht by lia.
      rewrite Hnth in Ht. inversion Ht; subst t.
      rewrite <- Hoff. apply Qnot_le_lt. intros Hle.
      apply Qle_bool_iff in Hle. congruence.
Qed.

Lemma final_packing (fuel : nat) (mastra : option Mastra) (r : Schedule.t) :
  execute tz inputData fuel mastra = Some (Returned r) ->
  exists segs : list (list Task),
    List.concat segs = tasks /\
    Forall (fun seg => seg <> []) segs /\
    Forall2 (fun d seg => Day.tasks d = entries 0 seg /\
                          Day.totalHours d = offset_after 0 seg)
            (Schedule.dailySchedule r) segs /\
    greedy_cut workingHoursPerDay segs.
Proof.
  intros H.
  apply execute_returned in H as (agent & st & days & _ & Hloop & Hflush & ->).
  apply (loop_invariant tz inputData (inv_packing tz inputData)) in Hloop
    as [(segs & cur & Hdays & Hentries & Hoff & Hcat & Hne & Hcut & Hlast & _)
          Hend].
  - cbn [Schedule.dailySchedule].
    pose proof Hcat as Hcat'.
    rewrite firstn_all2 in Hcat' by assumption.
    destruct (flushDay_returned _ _ Hflush)
      as [[Hnil ->]|(t & Hdate & Hnonnil & ->)].
    + rewrite Hnil in Hentries.
      symmetry in Hentries. apply entries_nil_inv in Hentries. subst cur.
      exists segs. rewrite app_nil_r in Hcat'. auto.
    + assert (Hcur_ne : cur <> []).
      { intros ->. now apply Hnonnil. }
      exists (segs ++ [cur]). repeat split.
      * rewrite concat_app. simpl. now rewrite app_nil_r.
      * apply Forall_app. split; auto.
      * apply Forall2_app; auto.
      * exact (greedy_cut_snoc _ _ _ _ _ Hcut Hlast Hcat).
  - intros st0 st1 task Hnth Hbody.
    now apply (packing_preserved st0 st1 task).
  - exists [], []. repeat split; auto; try constructor.
    + intros pre s t s' post Heq. now destruct pre.
    + intros pre s t Heq. now destruct pre.
    + intros Hne. now contradiction Hne.
Qed.

End Packing.

(** X9.  The days are packed greedily, whatever the time zone: the days of
    a schedule are the input tasks cut into consecutive non-empty runs, and
    the first task of every day but the first did not fit into the day
    before, whose [totalHours] plus that task's [estimatedHours] is above
    [workingHoursPerDay]. *)
Theorem days_are_packed_greedily
        (tz : TimeZone) (inputData : Input.t) (fuel : nat)
        (mastra : option Mastra) (r : Schedule.t) :
  execute tz inputData fuel mastra = Some (Returned r) ->
  exists segs : list (list Task),
    List.concat segs = Input.tasks inputData /\
    Forall2 (fun d seg => seg <> [] /\
                          map taskId (Day.tasks d) = map id seg)
            (Schedule.dailySchedule r) segs /\
    forall j d t seg',
      nth_error (Schedule.dailySchedule r) j = Some d ->
      nth_error segs (S j) = Some (t :: seg') ->
      Input.workingHoursPerDay inputData
      < Day.totalHours d + estimatedHours t.
Proof.
  intros H.
  destruct (final_packing tz inputData fuel mastra r H)
    as (segs & Hcat & Hne & Hdays & Hcut).
  exists segs. split; [exact Hcat|]. split.
  - clear Hcut Hcat. induction Hdays as [|d seg ds segs0 [Ht _] _ IH];
      constructor.
    + inversion Hne; subst. split; auto. rewrite Ht.
      clear. generalize 0. induction seg as [|x seg IH]; intros h; simpl;
        [reflexivity|]. now rewrite IH.
    + apply IH. now inversion Hne.
  - intros j d t seg' Hd Hseg.
    assert (Hj : exists s, nth_error segs j = Some s /\
                           Day.totalHours d = offset_after 0 s).
    { clear Hcut Hseg Hne Hcat. revert j Hd.
      induction Hdays as [|d0 seg0 ds segs0 [_ Htot] _ IH]; intros [|j] Hd;
        simpl in *; try discriminate.
      - inversion Hd; subst. now exists seg0.
      - now apply IH. }
    destruct Hj as (s & Hs & Htot).
    apply nth_error_split in Hs as (pre & rest & Hsegs & Hlen).
    subst segs. rewrite Htot.
    assert (Hrest : exists post, rest = (t :: seg') :: post).
    { rewrite <- Hlen in Hseg.
      replace (S (List.length pre)) with (List.length (pre ++ [s])) in Hseg
        by (rewrite length_app; simpl; lia).
      change (pre ++ s :: rest) with (pre ++ [s] ++ rest) in Hseg.
      rewrite app_assoc, nth_error_app2, Nat.sub_diag in Hseg by lia.
      destruct rest as [|x post]; simpl in Hseg; [discriminate|].
      inversion Hseg; subst. now exists post. }
    destruct Hrest as (post & ->).
    exact (Hcut pre s t seg' post eq_refl).
Qed.

Lemma days_are_packed_greedily_witness :
  exists r,
    execute utc input_426 13 theMastra = Some (Returned r) /\
    exists segs : list (list Task),
      List.concat segs = Input.tasks input_426 /\
      Forall2 (fun d seg => seg <> [] /\
                            map taskId (Day.tasks d) = map id seg)
              (Schedule.dailySchedule r) segs /\
      forall j d t seg',
        nth_error (Schedule.dailySchedule r) j = Some d ->
        nth_error segs (S j) = Some (t :: seg') ->
        Input.workingHoursPerDay input_426
        < Day.totalHours d + estimatedHours t.
Proof.
  exists result_426. split; [vm_compute; reflexivity|].
  apply (days_are_packed_greedily utc input_426 13 theMastra).
  vm_compute. reflexivity.
Defined.

(** X10.  Every day of a schedule holds the entries of a non-empty run of
    input tasks, each with the note made of its task's priority and
    reasoning, and the day's [totalHours] is the [estimatedHours] of these
    tasks added up from 0 in their order, which is their sum. *)
Theorem day_total_is_sum_of_its_tasks
        (tz : TimeZone) (inputData : Input.t) (fuel : nat)
        (mastra : option Mastra) (r : Schedule.t) :
  execute tz inputData fuel mastra = Some (Returned r) ->
  forall d, In d (Schedule.dailySchedule r) ->
    exists seg : list Task,
      seg <> [] /\
      incl seg (Input.tasks inputData) /\
      map taskId (Day.tasks d) = map id seg /\
      map notes (Day.tasks d) = map mkNotes seg /\
      Day.totalHours d = offset_after 0 seg /\
      Day.totalHours d == tasks_hours seg.
Proof.
  intros H d Hin.
  destruct (final_packing tz inputData fuel mastra r H)
    as (segs & Hcat & Hne & Hdays & _).
  destruct (Forall2_In_l _ _ _ _ Hdays Hin) as (seg & Hseg & Ht & Htot).
  exists seg. repeat split.
  - exact (proj1 (Forall_forall _ _) Hne seg Hseg).
  - intros t Ht'. rewrite <- Hcat. apply in_concat. now exists seg.
  - rewrite Ht. clear. generalize 0.
    induction seg as [|x seg IH]; intros h; simpl; [reflexivity|].
    now rewrite IH.
  - rewrite Ht. clear. generalize 0.
    induction seg as [|x seg IH]; intros h; simpl; [reflexivity|].
    now rewrite IH.
  - exact Htot.
  - rewrite Htot, offset_after_sum. ring.
Qed.

Lemma day_total_is_sum_of_its_tasks_witness :
  exists r,
    execute utc input_426 13 theMastra = Some (Returned r) /\
    forall d, In d (Schedule.dailySchedule r) ->
      exists seg : list Task,
        seg <> [] /\
        incl seg (Input.tasks input_426) /\
        map taskId (Day.tasks d) = map id seg /\
        map notes (Day.tasks d) = map mkNotes seg /\
        Day.totalHours d = offset_after 0 seg /\
        Day.totalHours d == tasks_hours seg.
Proof.
  exists result_426. split; [vm_compute; reflexivity|].
  apply (day_total_is_sum_of_its_tasks utc input_426 13 theMastra).
  vm_compute. reflexivity.
Defined.

Lemma entries_last (seg : list Task) (t : Task) (h : Q) :
  exists pre a,
    entries h (seg ++ [t]) = pre ++ [a] /\
    endTime a = formatTime (offset_after h (seg ++ [t])).
Proof.
  rewrite entries_snoc. eexists. eexists. split; [reflexivity|].
  unfold offset_after. rewrite fold_left_app. reflexivity.
Qed.

(** X11.  The last entry of every day ends at the day's [totalHours]: its
    [endTime] is [formatTime totalHours]. *)
Theorem last_entry_ends_at_total
        (tz : TimeZone) (inputData : Input.t) (fuel : nat)
        (mastra : option Mastra) (r : Schedule.t) :
  execute tz inputData fuel mastra = Some (Returned r) ->
  forall d, In d (Schedule.dailySchedule r) ->
    exists pre a,
      Day.tasks d = pre ++ [a] /\
      endTime a = formatTime (Day.totalHours d).
Proof.
  intros H d Hin.
  destruct (final_packing tz inputData fuel mastra r H)
    as (segs & _ & Hne & Hdays & _).
  destruct (Forall2_In_l _ _ _ _ Hdays Hin) as (seg & Hseg & Ht & Htot).
  pose proof (proj1 (Forall_forall _ _) Hne seg Hseg) as Hseg_ne.
  destruct (@exists_last _ seg Hseg_ne) as (seg' & t & ->).
  rewrite Ht, Htot. apply entries_last.
Qed.

Lemma last_entry_ends_at_total_witness :
  exists r,
    execute utc input_426 13 theMastra = Some (Returned r) /\
    forall d, In d (Schedule.dailySchedule r) ->
      exists pre a,
        Day.tasks d = pre ++ [a] /\
        endTime a = formatTime (Day.totalHours d).
Proof.
  exists result_426. split; [vm_compute; reflexivity|].
  apply (last_entry_ends_at_total utc input_426 13 theMastra).
  vm_compute. reflexivity.
Defined.
(** *** The time labels *)





(** ** Properties of the [analyze-tasks] step *)

(** X14.  The priority taken from a parsed answer lies between 1 and 10: a
    score within that range is kept, a lower one becomes 1, a higher one
    10, and a missing score or a score of 0 becomes 5. *)
Theorem clampedPriority_spec (parsed : Parsed.t) :
  (1 <= clampedPriority parsed <= 10)%Z /\
  (forall v, Parsed.priority parsed = Some v -> (1 <= v <= 10)%Z ->
             clampedPriority parsed = v) /\
  (forall v, Parsed.priority parsed = Some v -> (v < 0)%Z ->
             clampedPriority parsed = 1%Z) /\
  (forall v, Parsed.priority parsed = Some v -> (10 < v)%Z ->
             clampedPriority parsed = 10%Z) /\
  (Parsed.priority parsed = None \/ Parsed.priority parsed = Some 0%Z ->
   clampedPriority parsed = 5%Z).
Proof.
  unfold clampedPriority, number_or.
  destruct (Parsed.priority parsed) as [v|].
  - destruct (v =? 0)%Z eqn:E.
    + apply Z.eqb_eq in E. subst v.
      repeat split; try lia; intros v Hv; inversion Hv; subst; lia.
    + apply Z.eqb_neq in E.
      repeat split; try lia; try (intros v' Hv; inversion Hv; subst; lia).
      intros [H|H]; [discriminate|]. inversion H. lia.
  - repeat split; try lia; intros v Hv; discriminate.
Qed.

Lemma clampedPriority_spec_witness :
  clampedPriority {| Parsed.priority := Some 7%Z; Parsed.reasoning := None |}
  = 7%Z /\
  clampedPriority {| Parsed.priority := Some 0%Z; Parsed.reasoning := None |}
  = 5%Z.
Proof.
  split.
  - destruct (clampedPriority_spec
                {| Parsed.priority := Some 7%Z; Parsed.reasoning := None |})
      as (_ & Hkeep & _).
    apply Hkeep; [reflexivity|lia].
  - destruct (clampedPriority_spec
                {| Parsed.priority := Some 0%Z; Parsed.reasoning := None |})
      as (_ & _ & _ & _ & Hdefault).
    apply Hdefault. right. reflexivity.
Defined.






Lemma insertByPriority_perm (t : Task) (l : list Task) :
  Permutation (insertByPriority t l) (t :: l).
Proof.
  induction l as [|x l IH]; simpl; [reflexivity|].
  destruct (aiPriority t <? aiPriority x)%Z; [|reflexivity].
  rewrite IH. apply perm_swap.
Qed.

Lemma sortByPriority_perm (l : list Task) :
  Permutation (sortByPriority l) l.
Proof.
  induction l as [|t l IH]; simpl; [reflexivity|].
  rewrite insertByPriority_perm. now constructor.
Qed.

Lemma insertByPriority_sorted (t : Task) (l : list Task) :
  Sorted (fun a b => (aiPriority b <= aiPriority a)%Z) l ->
  Sorted (fun a b => (aiPriority b <= aiPriority a)%Z) (insertByPriority t l).
Proof.
  induction 1 as [|x l Hs IH Hhd]; simpl; [repeat constructor|].
  destruct (Z.ltb_spec (aiPriority t) (aiPriority x)) as [Hlt|Hge].
  - constructor; [exact IH|].
    destruct l as [|y l]; simpl.
    + constructor. lia.
    + destruct (aiPriority t <? aiPriority y)%Z; constructor.
      * now inversion Hhd.
      * lia.
  - constructor; [now constructor|]. constructor. exact Hge.
Qed.

Lemma insertByPriority_filter (p : Z) (t : Task) (l : list Task) :
  filter (fun u => (aiPriority u =? p)%Z) (insertByPriority t l)
  = filter (fun u => (aiPriority u =? p)%Z) (t :: l).
Proof.
  induction l as [|x l IH]; [reflexivity|].
  cbn [insertByPriority].
  destruct (Z.ltb_spec (aiPriority t) (aiPriority x)) as [Hlt|Hge];
    [|reflexivity].
  cbn [filter] in *. rewrite IH.
  destruct (Z.eqb_spec (aiPriority x) p), (Z.eqb_spec (aiPriority t) p);
    try reflexivity.
  lia.
Qed.

(** X17.  Sorting by priority rearranges the tasks, leaves them in order of
    descending [aiPriority], and keeps tasks of equal priority in the order
    in which they came. *)
Theorem sortByPriority_spec (l : list Task) :
  Permutation (sortByPriority l) l /\
  StronglySorted (fun a b => (aiPriority b <= aiPriority a)%Z)
                 (sortByPriority l) /\
  (forall p, filter (fun u => (aiPriority u =? p)%Z) (sortByPriority l)
             = filter (fun u => (aiPriority u =? p)%Z) l).
Proof.
  split; [apply sortByPriority_perm|]. split.
  - apply Sorted_StronglySorted.
    + intros a b c Hab Hbc. lia.
    + induction l as [|t l IH]; simpl; [constructor|].
      now apply insertByPriority_sorted.
  - intros p. induction l as [|t l IH]; [reflexivity|].
    cbn [sortByPriority fold_right]. fold (sortByPriority l).
    rewrite insertByPriority_filter. cbn [filter]. now rewrite IH.
Qed.

Lemma analyzeFrom_fields (answers : nat -> option Parsed.t)
      (clock : nat -> Z) (tasks : list Raw.t) :
  forall index,
    map (fun t => (id t, title t, estimatedHours t))
        (analyzeFrom answers clock index tasks)
    = map (fun t => (Raw.id t, Raw.title t, Raw.estimatedHours t)) tasks.
Proof.
  induction tasks as [|task rest IH]; intros index; [reflexivity|].
  cbn [analyzeFrom map]. rewrite IH. f_equal.
  unfold analyzeTask. now destruct (answers index).
Qed.

Lemma clampedPriority_range (parsed : Parsed.t) :
  (1 <= clampedPriority parsed <= 10)%Z.
Proof. unfold clampedPriority. lia. Qed.

Lemma ruleBasedPriority_bounds (today : Z) (task : Raw.t) :
  (3 <= ruleBasedPriority today task <= 10)%Z.
Proof.
  unfold ruleBasedPriority.
  destruct (Raw.priority task) as [[]|];
    destruct (Raw.deadline task) as [[|d]|];
    repeat match goal with
           | |- context [(?a <=? ?b)%Z] => destruct (a <=? b)%Z
           end; lia.
Qed.

Lemma sortByPriority_sorted (l : list Task) :
  StronglySorted (fun a b => (aiPriority b <= aiPriority a)%Z)
                 (sortByPriority l).
Proof.
  apply Sorted_StronglySorted.
  - intros a b c Hab Hbc. lia.
  - induction l as [|t l IH]; simpl; [constructor|].
    now apply insertByPriority_sorted.
Qed.

Lemma analyzeFrom_range (answers : nat -> option Parsed.t)
      (clock : nat -> Z) (tasks : list Raw.t) :
  forall index,
    Forall (fun t => (1 <= aiPriority t <= 10)%Z)
           (analyzeFrom answers clock index tasks).
Proof.
  induction tasks as [|task rest IH]; intros index; constructor; auto.
  unfold analyzeTask. destruct (answers index) as [parsed|]; simpl.
  - apply clampedPriority_range.
  - pose proof (ruleBasedPriority_bounds (clock index) task). lia.
Qed.

(** X18.  Without an agent the step fails with its "Agent not found"
    error.  With an agent it returns every input task once, with its id,
    title and estimated hours and a priority between 1 and 10, in order of
    descending priority. *)
Theorem analyzeTasks_spec
        (mastra : option Mastra) (answers : nat -> option Parsed.t)
        (clock : nat -> Z) (tasks : list Raw.t) :
  (lookupAgent mastra = None ->
   analyzeTasks mastra answers clock tasks = inl AgentNotFoundUsingFallback) /\
  (lookupAgent mastra <> None ->
   exists out,
     analyzeTasks mastra answers clock tasks = inr out /\
     Permutation (map (fun t => (id t, title t, estimatedHours t)) out)
                 (map (fun t => (Raw.id t, Raw.title t, Raw.estimatedHours t))
                      tasks) /\
     Forall (fun t => (1 <= aiPriority t <= 10)%Z) out /\
     StronglySorted (fun a b => (aiPriority b <= aiPriority a)%Z) out).
Proof.
  unfold analyzeTasks. split.
  - intros ->. reflexivity.
  - intros Hagent. destruct (lookupAgent mastra) as [agent|]; [|congruence].
    eexists. split; [reflexivity|].
    pose proof (sortByPriority_perm (analyzeFrom answers clock 0 tasks))
      as Hperm.
    pose proof (sortByPriority_sorted (analyzeFrom answers clock 0 tasks))
      as Hsorted.
    repeat split.
    + rewrite <- (analyzeFrom_fields answers clock tasks 0).
      now apply Permutation_map.
    + apply (Permutation_Forall (Permutation_sym Hperm)).
      apply analyzeFrom_range.
    + exact Hsorted.
Qed.

Lemma analyzeTasks_spec_witness :
  exists out,
    analyzeTasks theMastra (fun _ => None) (fun _ => day_ms monday) sampleTasks
    = inr out /\
    map (fun t => (id t, aiPriority t)) out
    = [("task1", 9); ("task3", 8); ("task4", 7); ("task2", 5);
       ("task5", 3)]%string%Z /\
    StronglySorted (fun a b => (aiPriority b <= aiPriority a)%Z) out.
Proof.
  destruct (analyzeTasks_spec theMastra (fun _ => None)
              (fun _ => day_ms monday) sampleTasks) as [_ H].
  destruct H as (out & Hout & _ & _ & Hsorted); [discriminate|].
  exists out. split; [exact Hout|]. split; [|exact Hsorted].
  vm_compute in Hout. inversion Hout. reflexivity.
Defined.
